(** * organizationsMemberConnection: the member-listing resolver of talawa-api

    A shallow embedding of [src/resolvers/Query/organizationsMemberConnection.ts]:
    the filter builder [getInputArg], the resolver
    [organizationsMemberConnection] with its pagination options and the
    reshaping of the records the store returns, together with the part of the
    store's query language the builder emits.

    JavaScript values are modelled as far as the resolver touches them:
    - [Maybe A] is [InputMaybe<A> | undefined], with [null] and [undefined]
      kept apart because the resolver tests [=== null] and [=== undefined];
    - objects are association lists in property order, [set] being the
      assignment of one property;
    - [throw], the [SyntaxError] of [new RegExp] and a rejected store promise
      are outcomes of the computation. *)

From Stdlib Require Import String Ascii List ZArith Bool Lia DecimalString.
Import ListNotations.
Open Scope string_scope.
Open Scope list_scope.

(** ** JavaScript values *)

Inductive Maybe (A : Type) : Type :=
| Undefined : Maybe A
| Null : Maybe A
| Val : A -> Maybe A.

Arguments Undefined {A}.
Arguments Null {A}.
Arguments Val {A} _.

#[warning="-register-all"]
Inductive JsVal : Type :=
| JUndefined : JsVal
| JNull : JsVal
| JBool : bool -> JsVal
| JNum : Z -> JsVal
| JStr : string -> JsVal
| JArr : list JsVal -> JsVal
| JObj : list (string * JsVal) -> JsVal.

(** An object: its own enumerable properties, in property order. *)
Definition Object (V : Type) : Type := list (string * V).

Definition Obj : Type := Object JsVal.

Fixpoint get {V : Type} (k : string) (o : Object V) : option V :=
  match o with
  | [] => None
  | (k', v) :: rest => if String.eqb k k' then Some v else get k rest
  end.

(** [o[k] = v]: an existing property keeps its place, a new one goes last.
    This is the order of properties whose names are not integer indices,
    the only ones the resolver writes; JavaScript lists index names first. *)
Fixpoint set {V : Type} (k : string) (v : V) (o : Object V) : Object V :=
  match o with
  | [] => [(k, v)]
  | (k', v') :: rest =>
      if String.eqb k k' then (k, v) :: rest else (k', v') :: set k v rest
  end.

(** [{...base, ...o}]: the properties of [o] assigned onto [base] in order. *)
Definition spread {V : Type} (base o : Object V) : Object V :=
  fold_left (fun acc kv => set (fst kv) (snd kv) acc) o base.


(** Property read [o.k] of a plain object. *)
Definition getv (k : string) (o : Obj) : JsVal :=
  match get k o with
  | Some v => v
  | None => JUndefined
  end.

(** ToBoolean, for the types the resolver tests. *)
Class ToBoolean (A : Type) : Type := toBoolean : A -> bool.

#[export] Instance ToBoolean_string : ToBoolean string :=
  fun s => match s with EmptyString => false | String _ _ => true end.

#[export] Instance ToBoolean_list {A : Type} : ToBoolean (list A) :=
  fun _ => true.

#[export] Instance ToBoolean_Z : ToBoolean Z :=
  fun n => negb (Z.eqb n 0).

#[export] Instance ToBoolean_JsVal : ToBoolean JsVal :=
  fun v =>
    match v with
    | JUndefined | JNull => false
    | JBool b => b
    | JNum n => negb (Z.eqb n 0)
    | JStr s => toBoolean s
    | JArr _ | JObj _ => true
    end.

(** [if (x) ...] on an optional input: the value when it is truthy. *)
Definition truthy {A : Type} `{ToBoolean A} (m : Maybe A) : option A :=
  match m with
  | Val a => if toBoolean a then Some a else None
  | Undefined | Null => None
  end.

Definition string_of_Z (n : Z) : string := NilZero.string_of_int (Z.to_int n).

(** ToString, as a template literal applies it. *)
Fixpoint toString (v : JsVal) : string :=
  match v with
  | JUndefined => "undefined"
  | JNull => "null"
  | JBool true => "true"
  | JBool false => "false"
  | JNum n => string_of_Z n
  | JStr s => s
  | JArr l =>
      (fix join (l : list JsVal) : string :=
         match l with
         | [] => ""
         | x :: rest =>
             let e := match x with
                      | JUndefined | JNull => ""
                      | _ => toString x
                      end in
             match rest with
             | [] => e
             | _ :: _ => (e ++ "," ++ join rest)%string
             end
         end) l
  | JObj _ => "[object Object]"
  end.

Definition indexKey (n : nat) : string := NilZero.string_of_uint (Nat.to_uint n).

Definition indexed (l : list JsVal) : Obj :=
  combine (map indexKey (seq 0 (List.length l))) l.

Fixpoint chars (s : string) : list JsVal :=
  match s with
  | EmptyString => []
  | String c rest => JStr (String c EmptyString) :: chars rest
  end.

(** [{...v}]: the own enumerable properties of a value. *)
Definition spreadVal (v : JsVal) : Obj :=
  match v with
  | JObj o => o
  | JArr l => indexed l
  | JStr s => indexed (chars s)
  | JUndefined | JNull | JBool _ | JNum _ => []
  end.

(** ** Outcomes *)

Inductive Exn : Type :=
| ThrownString : string -> Exn        (* throw "..." *)
| ThrownError : string -> Exn         (* throw new Error("...") *)
| ThrownSyntaxError : string -> Exn   (* new RegExp(p) on a malformed p *)
| Rejected : string -> Exn.           (* the store's promise rejected *)

Inductive Outcome (A : Type) : Type :=
| Returns : A -> Outcome A
| Throws : Exn -> Outcome A.

Arguments Returns {A} _.
Arguments Throws {A} _.

(** A promise once awaited. *)
Inductive Settled (A : Type) : Type :=
| Fulfilled : A -> Settled A
| RejectedWith : string -> Settled A.

Arguments Fulfilled {A} _.
Arguments RejectedWith {A} _.

Definition await {A : Type} (p : Settled A) : Outcome A :=
  match p with
  | Fulfilled a => Returns a
  | RejectedWith reason => Throws (Rejected reason)
  end.

Definition obind {A B : Type} (m : Outcome A) (f : A -> Outcome B) : Outcome B :=
  match m with
  | Returns a => f a
  | Throws e => Throws e
  end.

Declare Scope outcome_scope.
Delimit Scope outcome_scope with outcome.
Notation "x <- m ;; k" := (obind m (fun x => k))
  (at level 61, m at next level, right associativity) : outcome_scope.

(** ** The store's query language

    What [getInputArg] and the resolver put under a path of the filter. *)

Record RegExp : Type := mkRegExp { source : string; flags : string }.

Inductive Cond : Type :=
| CEq : string -> Cond                  (* path: v *)
| CNe : string -> Cond                  (* path: { $ne: v } *)
| CIn : list string -> Cond             (* path: { $in: vs } *)
| CNin : list string -> Cond            (* path: { $nin: vs } *)
| CRegex : string -> string -> Cond     (* path: { $regex: p, $options: o } *)
| CRegExp : RegExp -> Cond              (* path: a RegExp object *)
| CSub : string -> Cond.                (* path: { _id: v } *)

Definition Filter : Type := Object Cond.

(** *** Patterns

    The store evaluates [$regex] strings and RegExp objects with its own
    engine.  The fragment modelled here is the one on which that engine and
    the JavaScript one agree: literal characters and the anchor [^].
    Strings are sequences of UTF-8 bytes, on which a literal match with
    case counting is a match byte for byte, for any character.  Case
    folding is the one of the ASCII letters, so a caseless match is
    modelled between ASCII patterns and ASCII subjects only.  A pattern
    with any other metacharacter, a flag other than [i], or a caseless
    match in which the pattern or the subject holds a non-ASCII byte has
    no value in the model ([None]). *)

Inductive Tok : Type :=
| TStart : Tok              (* ^ : only at offset 0, no multiline flag *)
| TChar : ascii -> Tok.     (* a literal character *)

Definition isMeta (c : ascii) : bool :=
  existsb (Ascii.eqb c)
    ["\"; "$"; "."; "*"; "+"; "?"; "("; ")"; "["; "]"; "{"; "}"; "|"]%char.

Definition isAscii (c : ascii) : bool := Nat.ltb (nat_of_ascii c) 128.

Fixpoint parse (p : string) : option (list Tok) :=
  match p with
  | EmptyString => Some []
  | String c rest =>
      if Ascii.eqb c "^" then option_map (cons TStart) (parse rest)
      else if isMeta c then None
      else option_map (cons (TChar c)) (parse rest)
  end.

Definition lower (c : ascii) : ascii :=
  let n := nat_of_ascii c in
  if Nat.leb 65 n && Nat.leb n 90 then ascii_of_nat (n + 32) else c.

Definition eqChar (caseless : bool) (a b : ascii) : bool :=
  if caseless then Ascii.eqb (lower a) (lower b) else Ascii.eqb a b.

(** The tokens match a prefix of [s]; [atStart] says [s] is the whole subject. *)
Fixpoint matchAt (toks : list Tok) (caseless atStart : bool) (s : string) : bool :=
  match toks with
  | [] => true
  | TStart :: ts => atStart && matchAt ts caseless atStart s
  | TChar a :: ts =>
      match s with
      | EmptyString => false
      | String b rest => eqChar caseless a b && matchAt ts caseless false rest
      end
  end.

(** Unanchored search: a match at some offset of the subject. *)
Fixpoint search (toks : list Tok) (caseless atStart : bool) (s : string) : bool :=
  matchAt toks caseless atStart s
  || match s with
     | EmptyString => false
     | String _ rest => search toks caseless false rest
     end.

Definition flagMode (f : string) : option bool :=
  if String.eqb f "" then Some false
  else if String.eqb f "i" then Some true
  else None.

Fixpoint allAscii (s : string) : bool :=
  match s with
  | EmptyString => true
  | String c rest => isAscii c && allAscii rest
  end.

Definition test (toks : list Tok) (caseless : bool) (v : string) : option bool :=
  if caseless && negb (allAscii v) then None
  else Some (search toks caseless true v).

Fixpoint anyMatch (toks : list Tok) (caseless : bool) (vals : list string)
  : option bool :=
  match vals with
  | [] => Some false
  | v :: rest =>
      match test toks caseless v, anyMatch toks caseless rest with
      | Some b, Some b' => Some (b || b')
      | _, _ => None
      end
  end.

Definition asciiTok (t : Tok) : bool :=
  match t with
  | TStart => true
  | TChar c => isAscii c
  end.

Definition regexAny (p f : string) (vals : list string) : option bool :=
  match parse p, flagMode f with
  | Some toks, Some caseless =>
      if caseless && negb (forallb asciiTok toks) then None
      else anyMatch toks caseless vals
  | _, _ => None
  end.

(** *** Evaluation of a filter on a stored record *)

Definition mem (v : string) (l : list string) : bool := existsb (String.eqb v) l.

(** A condition against the values the record holds at the path (one for a
    scalar, the elements for an array, none when the path is missing). *)
Definition matchesCond (c : Cond) (vals : list string) : option bool :=
  match c with
  | CEq v => Some (mem v vals)
  | CNe v => Some (negb (mem v vals))
  | CIn vs => Some (existsb (fun x => mem x vs) vals)
  | CNin vs => Some (negb (existsb (fun x => mem x vs) vals))
  | CRegex p o => regexAny p o vals
  | CRegExp re => regexAny (source re) (flags re) vals
  | CSub v => Some (mem v vals)
  end.

Definition leaves (v : JsVal) : list string :=
  match v with
  | JStr s => [s]
  | JArr l => flat_map (fun e => match e with JStr s => [s] | _ => [] end) l
  | _ => []
  end.

Fixpoint splitDot (path : string) : string * option string :=
  match path with
  | EmptyString => (EmptyString, None)
  | String c rest =>
      if Ascii.eqb c "." then (EmptyString, Some rest)
      else let (h, t) := splitDot rest in (String c h, t)
  end.

(** The string values of a record at a path; [a.b] reads [b] in the
    object, or in each object of the array, under [a]. *)
Definition valuesAt (path : string) (d : Obj) : list string :=
  match splitDot path with
  | (k, None) => leaves (getv k d)
  | (k, Some sub) =>
      match getv k d with
      | JObj o => leaves (getv sub o)
      | JArr l =>
          flat_map (fun e => match e with
                             | JObj o => leaves (getv sub o)
                             | _ => []
                             end) l
      | _ => []
      end
  end.

(** All the paths of a filter must hold: the store's implicit conjunction. *)
Fixpoint matchesQuery (q : Filter) (d : Obj) : option bool :=
  match q with
  | [] => Some true
  | (k, c) :: rest =>
      match matchesCond c (valuesAt k d), matchesQuery rest d with
      | Some b, Some b' => Some (b && b')
      | _, _ => None
      end
  end.

(** ** The filter input *)

Record UserWhereInput : Type := mkWhere {
  id : Maybe string;
  id_not : Maybe string;
  id_in : Maybe (list string);
  id_not_in : Maybe (list string);
  firstName : Maybe string;
  firstName_not : Maybe string;
  firstName_in : Maybe (list string);
  firstName_not_in : Maybe (list string);
  firstName_contains : Maybe string;
  firstName_starts_with : Maybe string;
  lastName : Maybe string;
  lastName_not : Maybe string;
  lastName_in : Maybe (list string);
  lastName_not_in : Maybe (list string);
  lastName_contains : Maybe string;
  lastName_starts_with : Maybe string;
  email : Maybe string;
  email_not : Maybe string;
  email_in : Maybe (list string);
  email_not_in : Maybe (list string);
  email_contains : Maybe string;
  email_starts_with : Maybe string;
  appLanguageCode : Maybe string;
  appLanguageCode_not : Maybe string;
  appLanguageCode_in : Maybe (list string);
  appLanguageCode_not_in : Maybe (list string);
  appLanguageCode_contains : Maybe string;
  appLanguageCode_starts_with : Maybe string;
  admin_for : Maybe string;
  event_title_contains : Maybe string
}.

(** An object is always truthy: [if (where)] fails on null and undefined only. *)
#[export] Instance ToBoolean_UserWhereInput : ToBoolean UserWhereInput :=
  fun _ => true.

(** One [if (x) { inputArg = { ...inputArg, k: c } }] block: [c] is the
    condition when the tested input is truthy. *)
Definition assignIf (k : string) (c : option Cond) (inputArg : Filter) : Filter :=
  match c with
  | Some c => set k c inputArg
  | None => inputArg
  end.

Section Builder.

(** The pattern grammar of the JavaScript engine: [new RegExp(p)] throws a
    SyntaxError exactly when [regExpSyntaxOk p] is [false]. *)
Variable regExpSyntaxOk : string -> bool.

Definition newRegExp (p : string) : Outcome RegExp :=
  if regExpSyntaxOk p then Returns (mkRegExp p "") else Throws (ThrownSyntaxError p).

(** One [starts_with] block: the RegExp is built first, then assigned. *)
Definition assignStartsWith (k : string) (m : Maybe string) (inputArg : Filter)
  : Outcome Filter :=
  match truthy m with
  | Some t =>
      (regexp <- newRegExp ("^" ++ t) ;;
       Returns (set k (CRegExp regexp) inputArg))%outcome
  | None => Returns inputArg
  end.

Definition getInputArg (where_ : Maybe UserWhereInput) : Outcome Filter :=
  let inputArg : Filter := [] in
  match truthy where_ with
  | None => Returns inputArg
  | Some w =>
      (let inputArg := assignIf "_id" (option_map CEq (truthy (id w))) inputArg in
       let inputArg := assignIf "_id" (option_map CNe (truthy (id_not w))) inputArg in
       let inputArg := assignIf "_id" (option_map CIn (truthy (id_in w))) inputArg in
       let inputArg := assignIf "_id" (option_map CNin (truthy (id_not_in w))) inputArg in
       let inputArg := assignIf "firstName" (option_map CEq (truthy (firstName w))) inputArg in
       let inputArg := assignIf "firstName" (option_map CNe (truthy (firstName_not w))) inputArg in
       let inputArg := assignIf "firstName" (option_map CIn (truthy (firstName_in w))) inputArg in
       let inputArg := assignIf "firstName" (option_map CNin (truthy (firstName_not_in w))) inputArg in
       let inputArg := assignIf "firstName"
                         (option_map (fun p => CRegex p "i") (truthy (firstName_contains w)))
                         inputArg in
       inputArg <- assignStartsWith "firstName" (firstName_starts_with w) inputArg ;;
       let inputArg := assignIf "lastName" (option_map CEq (truthy (lastName w))) inputArg in
       let inputArg := assignIf "lastName" (option_map CNe (truthy (lastName_not w))) inputArg in
       let inputArg := assignIf "lastName" (option_map CIn (truthy (lastName_in w))) inputArg in
       let inputArg := assignIf "lastName" (option_map CNin (truthy (lastName_not_in w))) inputArg in
       let inputArg := assignIf "lastName"
                         (option_map (fun p => CRegex p "i") (truthy (lastName_contains w)))
                         inputArg in
       inputArg <- assignStartsWith "lastName" (lastName_starts_with w) inputArg ;;
       let inputArg := assignIf "email" (option_map CEq (truthy (email w))) inputArg in
       let inputArg := assignIf "email" (option_map CNe (truthy (email_not w))) inputArg in
       let inputArg := assignIf "email" (option_map CIn (truthy (email_in w))) inputArg in
       let inputArg := assignIf "email" (option_map CNin (truthy (email_not_in w))) inputArg in
       let inputArg := assignIf "email"
                         (option_map (fun p => CRegex p "i") (truthy (email_contains w)))
                         inputArg in
       inputArg <- assignStartsWith "email" (email_starts_with w) inputArg ;;
       let inputArg := assignIf "appLanguageCode"
                         (option_map CEq (truthy (appLanguageCode w))) inputArg in
       let inputArg := assignIf "appLanguageCode"
                         (option_map CNe (truthy (appLanguageCode_not w))) inputArg in
       let inputArg := assignIf "appLanguageCode"
                         (option_map CIn (truthy (appLanguageCode_in w))) inputArg in
       let inputArg := assignIf "appLanguageCode"
                         (option_map CNin (truthy (appLanguageCode_not_in w))) inputArg in
       let inputArg := assignIf "appLanguageCode"
                         (option_map (fun p => CRegex p "i")
                            (truthy (appLanguageCode_contains w)))
                         inputArg in
       inputArg <- assignStartsWith "appLanguageCode"
                     (appLanguageCode_starts_with w) inputArg ;;
       let inputArg := assignIf "adminFor" (option_map CSub (truthy (admin_for w))) inputArg in
       let inputArg := assignIf "registeredEvents.title"
                         (option_map (fun p => CRegex p "i")
                            (truthy (event_title_contains w)))
                         inputArg in
       Returns inputArg)%outcome
  end.

End Builder.

(** ** The store *)

(** A record as [User.paginate] hands it over: a plain object under
    [lean: true], otherwise a hydrated document holding the raw record
    under [_doc]. *)
Inductive StoreDoc : Type :=
| LeanDoc : Obj -> StoreDoc
| HydratedDoc : Obj -> StoreDoc.

(** [user.image]: a property of the plain object, or the document's getter
    for the path. *)
Definition user_image (user : StoreDoc) : JsVal :=
  match user with
  | LeanDoc o => getv "image" o
  | HydratedDoc d => getv "image" d
  end.

(** [user._doc] *)
Definition user_doc (user : StoreDoc) : JsVal :=
  match user with
  | LeanDoc o => getv "_doc" o
  | HydratedDoc d => JObj d
  end.

(** [{...user}]: the raw record when lean; the internals of a hydrated
    document otherwise, the record itself staying under [_doc]. *)
Definition spreadUser (user : StoreDoc) : Obj :=
  match user with
  | LeanDoc o => o
  | HydratedDoc d => [("$__", JObj []); ("$isNew", JBool false); ("_doc", JObj d)]
  end.

Module PaginateResult.
Record t : Type := mk {
  docs : list StoreDoc;
  totalDocs : Z;
  hasNextPage : bool;
  hasPrevPage : bool;
  totalPages : Z;
  nextPage : Maybe Z;
  prevPage : Maybe Z;
  page : Maybe Z
}.
End PaginateResult.

(** ** The response *)

Record PageInfo : Type := mkPageInfo {
  hasNextPage : bool;
  hasPreviousPage : bool;
  totalPages : Z;
  nextPageNo : Maybe Z;
  prevPageNo : Maybe Z;
  currPageNo : Maybe Z
}.

Record Aggregate : Type := mkAggregate { count : Z }.

Record Connection : Type := mkConnection {
  pageInfo : PageInfo;
  edges : list Obj;
  aggregate : Aggregate
}.

Record Context : Type := mkContext { apiRootUrl : string }.

(** [user.image ? `${context.apiRootUrl}${user.image}` : null] *)
Definition imageUrl (context : Context) (image : JsVal) : JsVal :=
  if toBoolean image
  then JStr (toString (JStr (apiRootUrl context)) ++ toString image)
  else JNull.

Section Resolver.

Variables OrderBy Sort : Type.

(** [./helperFunctions/getSort]: the ordering handed to the store. *)
Variable getSort : Maybe OrderBy -> Sort.

Variable regExpSyntaxOk : string -> bool.

Record QueryArgs : Type := mkArgs {
  where_ : Maybe UserWhereInput;
  orderBy : Maybe OrderBy;
  first : Maybe Z;
  skip : Maybe Z;
  orgId : string
}.

(** The options object of [User.paginate]; a key that is not written is
    [Undefined], an absent array is empty. *)
Record PaginateOptions : Type := mkOptions {
  lean : Maybe bool;
  sort : Sort;
  pagination : bool;
  page : Maybe Z;
  limit : Maybe Z;
  populate : list string;
  select : list string
}.

(** [{ ...paginateOptions, populate: p, select: s }] *)
Definition withPopulateSelect (o : PaginateOptions) (p s : list string)
  : PaginateOptions :=
  mkOptions (lean o) (sort o) (pagination o) (page o) (limit o) p s.

Definition StoreCall : Type := (Filter * PaginateOptions)%type.

(** [User.paginate] of the models, backed by the database. *)
Variable User_paginate : Filter -> PaginateOptions -> Settled PaginateResult.t.

(** The resolver's computations: the store calls made so far, in order,
    and the outcome. *)
Definition M (A : Type) : Type := (list StoreCall * Outcome A)%type.

Definition ret {A : Type} (a : A) : M A := ([], Returns a).

Definition throw {A : Type} (e : Exn) : M A := ([], Throws e).

Definition lift {A : Type} (o : Outcome A) : M A := ([], o).

Definition bind {A B : Type} (m : M A) (f : A -> M B) : M B :=
  match m with
  | (calls, Returns a) => let (calls', r) := f a in (calls ++ calls', r)
  | (calls, Throws e) => (calls, Throws e)
  end.

(** [await User.paginate(query, options)] *)
Definition await_paginate (query : Filter) (options : PaginateOptions)
  : M PaginateResult.t :=
  ([(query, options)], await (User_paginate query options)).

Declare Scope resolver_scope.
Delimit Scope resolver_scope with resolver.
Notation "x <- m ;; k" := (bind m (fun x => k))
  (at level 61, m at next level, right associativity) : resolver_scope.

Definition organizationsMemberConnection (args : QueryArgs) (context : Context)
  : M Connection :=
  (inputArg <- lift (getInputArg regExpSyntaxOk (where_ args)) ;;
   let sort := getSort (orderBy args) in
   paginateOptions <-
     match truthy (first args) with
     | Some _ =>
         match skip args with
         | Null =>
             throw (ThrownString
                      "Missing Skip parameter. Set it to either 0 or some other value")
         | _ =>
             ret (mkOptions (Val true) sort true (skip args) (first args) [] [])
         end
     | None => ret (mkOptions Undefined sort false Undefined Undefined [] [])
     end ;;
   usersModel <-
     await_paginate
       (spread [("joinedOrganizations", CSub (orgId args))] inputArg)
       (withPopulateSelect paginateOptions ["registeredEvents"] ["-password"]) ;;
   users <-
     (if pagination paginateOptions then
        match skip args with
        | Undefined => throw (ThrownError "Skip parameter is missing")
        | _ =>
            ret (map (fun user =>
                        set "password" JNull
                          (set "image" (imageUrl context (user_image user))
                             (spreadUser user)))
                   (PaginateResult.docs usersModel))
        end
      else
        ret (map (fun user =>
                    set "password" JNull
                      (set "image" (imageUrl context (user_image user))
                         (spreadVal (user_doc user))))
               (PaginateResult.docs usersModel))) ;;
   ret (mkConnection
          (mkPageInfo (PaginateResult.hasNextPage usersModel)
             (PaginateResult.hasPrevPage usersModel)
             (PaginateResult.totalPages usersModel)
             (PaginateResult.nextPage usersModel)
             (PaginateResult.prevPage usersModel)
             (PaginateResult.page usersModel))
          users
          (mkAggregate (PaginateResult.totalDocs usersModel))))%resolver.

End Resolver.

Arguments mkArgs {OrderBy} _ _ _ _ _.
Arguments where_ {OrderBy} _.
Arguments orderBy {OrderBy} _.
Arguments first {OrderBy} _.
Arguments skip {OrderBy} _.
Arguments orgId {OrderBy} _.
Arguments mkOptions {Sort} _ _ _ _ _ _ _.
Arguments lean {Sort} _.
Arguments sort {Sort} _.
Arguments pagination {Sort} _.
Arguments page {Sort} _.
Arguments limit {Sort} _.
Arguments populate {Sort} _.
Arguments select {Sort} _.
Arguments withPopulateSelect {Sort} _ _ _.
Arguments organizationsMemberConnection {OrderBy Sort} _ _ _ _ _.

(** The filter handed to the store: [{ joinedOrganizations: { _id: orgId }, ...inputArg }]. *)
Definition storeQuery (orgId : string) (inputArg : Filter) : Filter :=
  spread [("joinedOrganizations", CSub orgId)] inputArg.

(** ** The builder in closed form

    The operators of one field are tested in a fixed order and each one that
    is set overwrites the field's property: the last one set is the one the
    filter keeps. *)

Inductive Field : Type :=
| F_id | F_firstName | F_lastName | F_email | F_appLanguageCode.

Definition path (f : Field) : string :=
  match f with
  | F_id => "_id"
  | F_firstName => "firstName"
  | F_lastName => "lastName"
  | F_email => "email"
  | F_appLanguageCode => "appLanguageCode"
  end.

Definition op_eq (f : Field) (w : UserWhereInput) : Maybe string :=
  match f with
  | F_id => id w
  | F_firstName => firstName w
  | F_lastName => lastName w
  | F_email => email w
  | F_appLanguageCode => appLanguageCode w
  end.

Definition op_not (f : Field) (w : UserWhereInput) : Maybe string :=
  match f with
  | F_id => id_not w
  | F_firstName => firstName_not w
  | F_lastName => lastName_not w
  | F_email => email_not w
  | F_appLanguageCode => appLanguageCode_not w
  end.

Definition op_in (f : Field) (w : UserWhereInput) : Maybe (list string) :=
  match f with
  | F_id => id_in w
  | F_firstName => firstName_in w
  | F_lastName => lastName_in w
  | F_email => email_in w
  | F_appLanguageCode => appLanguageCode_in w
  end.

Definition op_not_in (f : Field) (w : UserWhereInput) : Maybe (list string) :=
  match f with
  | F_id => id_not_in w
  | F_firstName => firstName_not_in w
  | F_lastName => lastName_not_in w
  | F_email => email_not_in w
  | F_appLanguageCode => appLanguageCode_not_in w
  end.

(** [id] has no [contains] and no [starts_with] operator. *)
Definition op_contains (f : Field) (w : UserWhereInput) : Maybe string :=
  match f with
  | F_id => Undefined
  | F_firstName => firstName_contains w
  | F_lastName => lastName_contains w
  | F_email => email_contains w
  | F_appLanguageCode => appLanguageCode_contains w
  end.

Definition op_starts_with (f : Field) (w : UserWhereInput) : Maybe string :=
  match f with
  | F_id => Undefined
  | F_firstName => firstName_starts_with w
  | F_lastName => lastName_starts_with w
  | F_email => email_starts_with w
  | F_appLanguageCode => appLanguageCode_starts_with w
  end.

(** The later assignment wins when it happens. *)
Definition orLast (earlier later : option Cond) : option Cond :=
  match later with
  | Some c => Some c
  | None => earlier
  end.

Definition startsWithCond (m : Maybe string) : option Cond :=
  option_map (fun t => CRegExp (mkRegExp ("^" ++ t) "")) (truthy m).

Definition containsCond (m : Maybe string) : option Cond :=
  option_map (fun p => CRegex p "i") (truthy m).

(** What the operators tested after [in] leave on the field. *)
Definition afterIn (f : Field) (w : UserWhereInput) : option Cond :=
  orLast (orLast (option_map CNin (truthy (op_not_in f w)))
            (containsCond (op_contains f w)))
    (startsWithCond (op_starts_with f w)).

(** What the operators tested after [not_in] leave on the field. *)
Definition afterNotIn (f : Field) (w : UserWhereInput) : option Cond :=
  orLast (containsCond (op_contains f w)) (startsWithCond (op_starts_with f w)).

(** What the operators tested after the equality leave on the field. *)
Definition afterEq (f : Field) (w : UserWhereInput) : option Cond :=
  orLast (orLast (option_map CNe (truthy (op_not f w)))
            (option_map CIn (truthy (op_in f w))))
    (afterIn f w).

(** The condition the filter keeps for a field. *)
Definition fieldCond (f : Field) (w : UserWhereInput) : option Cond :=
  orLast (option_map CEq (truthy (op_eq f w))) (afterEq f w).

Definition entry (k : string) (c : option Cond) : Filter :=
  match c with
  | Some c => [(k, c)]
  | None => []
  end.

Definition entries (c_id c_first c_last c_email c_lang c_admin c_event : option Cond)
  : Filter :=
  entry "_id" c_id ++ entry "firstName" c_first ++ entry "lastName" c_last
  ++ entry "email" c_email ++ entry "appLanguageCode" c_lang
  ++ entry "adminFor" c_admin ++ entry "registeredEvents.title" c_event.

Definition normalForm (w : UserWhereInput) : Filter :=
  entries (fieldCond F_id w) (fieldCond F_firstName w) (fieldCond F_lastName w)
    (fieldCond F_email w) (fieldCond F_appLanguageCode w)
    (option_map CSub (truthy (admin_for w)))
    (containsCond (event_title_contains w)).

(** The pattern of a [starts_with] block that the engine refuses. *)
Definition rejectedPattern (ok : string -> bool) (m : Maybe string) : option string :=
  match truthy m with
  | Some t => if ok ("^" ++ t)%string then None else Some ("^" ++ t)%string
  | None => None
  end.

Definition orFirst (a b : option string) : option string :=
  match a with
  | Some p => Some p
  | None => b
  end.

(** The first pattern, in the order of the blocks, that makes the builder throw. *)
Definition badPattern (ok : string -> bool) (w : UserWhereInput) : option string :=
  orFirst (rejectedPattern ok (firstName_starts_with w))
    (orFirst (rejectedPattern ok (lastName_starts_with w))
       (orFirst (rejectedPattern ok (email_starts_with w))
          (rejectedPattern ok (appLanguageCode_starts_with w)))).



Definition unset {A : Type} (m : Maybe A) : bool :=
  match m with
  | Val _ => false
  | Undefined | Null => true
  end.

(** No field of the filter is given, or the filter itself is not. *)
Definition noFieldsSet (where_ : Maybe UserWhereInput) : bool :=
  match where_ with
  | Undefined | Null => true
  | Val w =>
      unset (id w) && unset (id_not w) && unset (id_in w) && unset (id_not_in w)
      && unset (firstName w) && unset (firstName_not w) && unset (firstName_in w)
      && unset (firstName_not_in w) && unset (firstName_contains w)
      && unset (firstName_starts_with w)
      && unset (lastName w) && unset (lastName_not w) && unset (lastName_in w)
      && unset (lastName_not_in w) && unset (lastName_contains w)
      && unset (lastName_starts_with w)
      && unset (email w) && unset (email_not w) && unset (email_in w)
      && unset (email_not_in w) && unset (email_contains w)
      && unset (email_starts_with w)
      && unset (appLanguageCode w) && unset (appLanguageCode_not w)
      && unset (appLanguageCode_in w) && unset (appLanguageCode_not_in w)
      && unset (appLanguageCode_contains w) && unset (appLanguageCode_starts_with w)
      && unset (admin_for w) && unset (event_title_contains w)
  end.

(** A term without pattern syntax: no anchor, no metacharacter. *)
Fixpoint literal (t : string) : bool :=
  match t with
  | EmptyString => true
  | String c rest =>
      negb (Ascii.eqb c "^") && negb (isMeta c) && literal rest
  end.

(** [t] is a prefix of [v] up to the case of ASCII letters. *)
Fixpoint prefixNoCase (t v : string) : bool :=
  match t, v with
  | EmptyString, _ => true
  | String _ _, EmptyString => false
  | String a t', String b v' => Ascii.eqb (lower a) (lower b) && prefixNoCase t' v'
  end.

(** The record a member is sent back as. *)
Definition reshaped (context : Context) (raw : Obj) : Obj :=
  set "password" JNull (set "image" (imageUrl context (getv "image" raw)) raw).

(** ** Notions used in the statements *)

(** [build(orgId, filter)]: the filter of [getInputArg] under the membership
    condition, as the resolver passes it to the store. *)
Definition buildPredicate (ok : string -> bool) (orgId : string)
  (where_ : Maybe UserWhereInput) : Outcome Filter :=
  (inputArg <- getInputArg ok where_ ;; Returns (storeQuery orgId inputArg))%outcome.

(** The two set operators. *)
Inductive SetOp : Type :=
| OpIn : SetOp
| OpNotIn : SetOp.

Definition setOperand (op : SetOp) (f : Field) (w : UserWhereInput)
  : Maybe (list string) :=
  match op with
  | OpIn => op_in f w
  | OpNotIn => op_not_in f w
  end.

Definition afterSetOp (op : SetOp) (f : Field) (w : UserWhereInput) : option Cond :=
  match op with
  | OpIn => afterIn f w
  | OpNotIn => afterNotIn f w
  end.

Definition emptySetCond (op : SetOp) : Cond :=
  match op with
  | OpIn => CIn []
  | OpNotIn => CNin []
  end.

(** Standard set semantics on the empty set: nothing is a member of it,
    everything is outside it. *)
Definition emptySetVerdict (op : SetOp) : bool :=
  match op with
  | OpIn => false
  | OpNotIn => true
  end.

(** The member the paged branch maps a record to. *)
Definition pagedEdge (context : Context) (user : StoreDoc) : Obj :=
  set "password" JNull
    (set "image" (imageUrl context (user_image user)) (spreadUser user)).

(** The member the unpaged branch maps a record to. *)
Definition unpagedEdge (context : Context) (user : StoreDoc) : Obj :=
  set "password" JNull
    (set "image" (imageUrl context (user_image user)) (spreadVal (user_doc user))).

(** The options of an unpaged call, populate and select included. *)
Definition unpagedOptions {Sort : Type} (sort : Sort) : PaginateOptions Sort :=
  mkOptions Undefined sort false Undefined Undefined ["registeredEvents"] ["-password"].

(** The options of a paged call, populate and select included. *)
Definition pagedOptions {Sort : Type} (sort : Sort) (skip first : Maybe Z)
  : PaginateOptions Sort :=
  mkOptions (Val true) sort true skip first ["registeredEvents"] ["-password"].

Definition isReturns {A : Type} (o : Outcome A) : bool :=
  match o with
  | Returns _ => true
  | Throws _ => false
  end.

Definition missingSkip : string :=
  "Missing Skip parameter. Set it to either 0 or some other value".

(** What the spec says of a member's image, read on a raw record and the
    member made of it. *)
Definition imageRule (context : Context) (user : StoreDoc) (member : Obj) : Prop :=
  (forall s : string,
      user_image user = JStr s -> s <> "" ->
      get "image" member = Some (JStr (apiRootUrl context ++ s)))
  /\ (user_image user = JNull -> get "image" member = Some JNull).

(** The response assembled from the store's page and the mapped records. *)
Definition connectionOf (usersModel : PaginateResult.t) (users : list Obj)
  : Connection :=
  mkConnection
    (mkPageInfo (PaginateResult.hasNextPage usersModel)
       (PaginateResult.hasPrevPage usersModel)
       (PaginateResult.totalPages usersModel)
       (PaginateResult.nextPage usersModel)
       (PaginateResult.prevPage usersModel)
       (PaginateResult.page usersModel))
    users
    (mkAggregate (PaginateResult.totalDocs usersModel)).

(** ** An in-memory store, for the examples

    Records are kept in a list; the filter is evaluated by [matchesQuery];
    the page arithmetic is the one of the pagination plugin for a positive
    limit; a pattern outside the modelled fragment rejects the call.  The
    projection [select] is not applied: records come back whole, so that the
    examples exercise the resolver's own redaction. *)

Fixpoint filterDocs (q : Filter) (db : list Obj) : option (list Obj) :=
  match db with
  | [] => Some []
  | d :: rest =>
      match matchesQuery q d, filterDocs q rest with
      | Some b, Some ms => Some (if b then d :: ms else ms)
      | _, _ => None
      end
  end.

Definition memStore {Sort : Type} (db : list Obj) (q : Filter)
  (o : PaginateOptions Sort) : Settled PaginateResult.t :=
  match filterDocs q db with
  | None => RejectedWith "unsupported pattern"
  | Some ms =>
      let wrap := match lean o with
                  | Val true => LeanDoc
                  | _ => HydratedDoc
                  end in
      let n := Z.of_nat (List.length ms) in
      if pagination o then
        let l := match limit o with
                 | Val l => if Z.leb l 0 then 10%Z else l
                 | _ => 10%Z
                 end in
        let p := match page o with
                 | Val p => Z.max p 1
                 | _ => 1%Z
                 end in
        let pages := Z.max 1 ((n + l - 1) / l) in
        Fulfilled
          (PaginateResult.mk
             (map wrap (firstn (Z.to_nat l) (skipn (Z.to_nat ((p - 1) * l)) ms)))
             n (Z.ltb p pages) (Z.ltb 1 p) pages
             (if Z.ltb p pages then Val (p + 1)%Z else Null)
             (if Z.ltb 1 p then Val (p - 1)%Z else Null)
             (Val p))
      else
        Fulfilled
          (PaginateResult.mk (map wrap ms) n false false 1%Z Null Null (Val 1%Z))
  end.

(** The engine's grammar cut down to the modelled fragment: every pattern
    it accepts is a literal with anchors. *)
Definition fragmentSyntaxOk (p : string) : bool :=
  match parse p with
  | Some _ => true
  | None => false
  end.

Definition userJohn : Obj :=
  [("_id", JStr "u1"); ("firstName", JStr "John"); ("lastName", JStr "Doe");
   ("email", JStr "john@example.com"); ("appLanguageCode", JStr "en");
   ("image", JStr "/u1.png"); ("password", JStr "hash1");
   ("joinedOrganizations", JArr [JStr "org1"])].

Definition userAJohnson : Obj :=
  [("_id", JStr "u2"); ("firstName", JStr "AJohnson"); ("lastName", JStr "Roe");
   ("email", JStr "aj@example.com"); ("appLanguageCode", JStr "fr");
   ("image", JNull); ("password", JStr "hash2");
   ("joinedOrganizations", JArr [JStr "org1"; JStr "org2"])].

Definition userJohnson : Obj :=
  [("_id", JStr "u3"); ("firstName", JStr "Johnson"); ("lastName", JStr "Poe");
   ("email", JStr "jp@example.com"); ("appLanguageCode", JStr "en");
   ("image", JStr "/u3.png"); ("password", JStr "hash3");
   ("joinedOrganizations", JArr [JStr "org2"])].

Definition sampleDb : list Obj := [userJohn; userAJohnson; userJohnson].

Definition sampleContext : Context := mkContext "https://api.example.com".

Definition emptyWhere : UserWhereInput :=
  mkWhere Undefined Undefined Undefined Undefined
    Undefined Undefined Undefined Undefined Undefined Undefined
    Undefined Undefined Undefined Undefined Undefined Undefined
    Undefined Undefined Undefined Undefined Undefined Undefined
    Undefined Undefined Undefined Undefined Undefined Undefined
    Undefined Undefined.

(** The operators of [firstName], in the order of the blocks; every other
    field is left out. *)
Definition firstNameWhere (eq ne : Maybe string) (inl nin : Maybe (list string))
  (contains starts : Maybe string) : UserWhereInput :=
  mkWhere Undefined Undefined Undefined Undefined
    eq ne inl nin contains starts
    Undefined Undefined Undefined Undefined Undefined Undefined
    Undefined Undefined Undefined Undefined Undefined Undefined
    Undefined Undefined Undefined Undefined Undefined Undefined
    Undefined Undefined.

(** The operators of [id]; every other field is left out. *)
Definition idWhere (eq ne : Maybe string) (inl nin : Maybe (list string))
  : UserWhereInput :=
  mkWhere eq ne inl nin
    Undefined Undefined Undefined Undefined Undefined Undefined
    Undefined Undefined Undefined Undefined Undefined Undefined
    Undefined Undefined Undefined Undefined Undefined Undefined
    Undefined Undefined Undefined Undefined Undefined Undefined
    Undefined Undefined.

Definition sampleArgs (w : Maybe UserWhereInput) (first skip : Maybe Z)
  : QueryArgs unit :=
  mkArgs w Undefined first skip "org1".

(** The resolver over the in-memory store. *)
Definition sampleRun (w : Maybe UserWhereInput) (first skip : Maybe Z)
  : M unit Connection :=
  organizationsMemberConnection (fun _ => tt) fragmentSyntaxOk (memStore sampleDb)
    (sampleArgs w first skip) sampleContext.

(** ** Further notions: the builder's inputs and the members' shape *)

(** The terms of the four [starts_with] blocks, in the order of the blocks. *)
Definition startsWithTerms (w : UserWhereInput) : list (Maybe string) :=
  [firstName_starts_with w; lastName_starts_with w; email_starts_with w;
   appLanguageCode_starts_with w].

(** An input with its falsy value taken out. *)
Definition dropFalsy {A : Type} `{ToBoolean A} (m : Maybe A) : Maybe A :=
  match truthy m with
  | Some a => Val a
  | None => Undefined
  end.

Definition dropFalsyWhere (w : UserWhereInput) : UserWhereInput :=
  mkWhere (dropFalsy (id w)) (dropFalsy (id_not w)) (dropFalsy (id_in w))
    (dropFalsy (id_not_in w))
    (dropFalsy (firstName w)) (dropFalsy (firstName_not w))
    (dropFalsy (firstName_in w)) (dropFalsy (firstName_not_in w))
    (dropFalsy (firstName_contains w)) (dropFalsy (firstName_starts_with w))
    (dropFalsy (lastName w)) (dropFalsy (lastName_not w))
    (dropFalsy (lastName_in w)) (dropFalsy (lastName_not_in w))
    (dropFalsy (lastName_contains w)) (dropFalsy (lastName_starts_with w))
    (dropFalsy (email w)) (dropFalsy (email_not w))
    (dropFalsy (email_in w)) (dropFalsy (email_not_in w))
    (dropFalsy (email_contains w)) (dropFalsy (email_starts_with w))
    (dropFalsy (appLanguageCode w)) (dropFalsy (appLanguageCode_not w))
    (dropFalsy (appLanguageCode_in w)) (dropFalsy (appLanguageCode_not_in w))
    (dropFalsy (appLanguageCode_contains w))
    (dropFalsy (appLanguageCode_starts_with w))
    (dropFalsy (admin_for w)) (dropFalsy (event_title_contains w)).

(** [t] occurs in [v] at some offset, up to the case of ASCII letters. *)
Fixpoint containsNoCase (t v : string) : bool :=
  prefixNoCase t v
  || match v with
     | EmptyString => false
     | String _ rest => containsNoCase t rest
     end.

(** A member keeps every property of the raw record but [image] and
    [password]; the raw record is the lean object of a paged call and the
    [_doc] of the document of an unpaged one. *)
Definition keepsFields (paged : bool) (user : StoreDoc) (member : Obj) : Prop :=
  forall raw : Obj,
    user = (if paged then LeanDoc raw else HydratedDoc raw) ->
    forall k : string,
      k <> "image" -> k <> "password" -> get k member = get k raw.

(** A falsy raw image (missing, null, empty) gives a null image. *)
Definition falsyImageRule (user : StoreDoc) (member : Obj) : Prop :=
  toBoolean (user_image user) = false -> get "image" member = Some JNull.

(** A record whose registered events are populated. *)
Definition userWithEvents : Obj :=
  [("_id", JStr "u4"); ("firstName", JStr "Ann"); ("image", JStr "");
   ("joinedOrganizations", JArr [JStr "org1"]);
   ("adminFor", JArr [JStr "org1"; JStr "org7"]);
   ("registeredEvents",
    JArr [JObj [("title", JStr "Spring Gala")]; JObj [("title", JStr "Hackathon")]])].

(** A filter with [admin_for] and [event_title_contains] only. *)
Definition relationWhere (admin event : Maybe string) : UserWhereInput :=
  mkWhere Undefined Undefined Undefined Undefined
    Undefined Undefined Undefined Undefined Undefined Undefined
    Undefined Undefined Undefined Undefined Undefined Undefined
    Undefined Undefined Undefined Undefined Undefined Undefined
    Undefined Undefined Undefined Undefined Undefined Undefined
    admin event.

(** A filter whose [lastName_starts_with] term is not a pattern. *)
Definition refusedWhere : UserWhereInput :=
  mkWhere Undefined Undefined Undefined Undefined
    Undefined Undefined Undefined Undefined Undefined (Val "Jo")
    Undefined Undefined Undefined Undefined Undefined (Val "(")
    Undefined Undefined Undefined Undefined Undefined Undefined
    Undefined Undefined Undefined Undefined Undefined Undefined
    Undefined Undefined.

(** The resolver over a store holding a record with an empty image. *)
Definition eventsRun (first skip : Maybe Z) : M unit Connection :=
  organizationsMemberConnection (fun _ => tt) fragmentSyntaxOk
    (memStore [userWithEvents; userAJohnson])
    (sampleArgs Undefined first skip) sampleContext.

(** ** The filter as an object

    The resolver receives the filter as an object and the builder reads
    its properties by name, [where.id], [where.id_not], ...  A property
    that is absent reads as undefined.  The schema lets through strings,
    lists of strings and null only: an object holding anything else under
    a recognised name is not an input of the resolver ([None]). *)




Definition ap {A B : Type} (f : option (A -> B)) (x : option A) : option B :=
  match f, x with
  | Some f, Some x => Some (f x)
  | _, _ => None
  end.

Declare Scope reader_scope.
Delimit Scope reader_scope with reader.
Notation "f <*> x" := (ap f x) (at level 50, left associativity) : reader_scope.









(** * Properties *)

(** ** Objects *)

Lemma get_set_same {V : Type} (k : string) (v : V) (o : Object V) :
  get k (set k v o) = Some v.
Proof.
  induction o as [|[k' v'] o IH]; simpl.
  - now rewrite String.eqb_refl.
  - destruct (String.eqb k k') eqn:E; simpl.
    + now rewrite String.eqb_refl.
    + now rewrite E.
Qed.

Lemma get_set_other {V : Type} (k k' : string) (v : V) (o : Object V) :
  String.eqb k k' = false -> get k (set k' v o) = get k o.
Proof.
  intros Hne. induction o as [|[k0 v0] o IH]; simpl.
  - now rewrite Hne.
  - destruct (String.eqb k' k0) eqn:E; simpl.
    + apply String.eqb_eq in E. subst k0. now rewrite Hne.
    + now rewrite IH.
Qed.

Lemma set_set {V : Type} (k : string) (v1 v2 : V) (o : Object V) :
  set k v2 (set k v1 o) = set k v2 o.
Proof.
  induction o as [|[k' v'] o IH]; simpl.
  - now rewrite String.eqb_refl.
  - destruct (String.eqb k k') eqn:E; simpl.
    + now rewrite String.eqb_refl.
    + now rewrite E, IH.
Qed.

(** ** The builder *)

Lemma field_chain (k : string) (a b c d e f : option Cond) (acc : Filter) :
  assignIf k f (assignIf k e (assignIf k d (assignIf k c
    (assignIf k b (assignIf k a acc)))))
  = assignIf k (orLast a (orLast (orLast b c) (orLast (orLast d e) f))) acc.
Proof.
  destruct a, b, c, d, e, f; simpl; rewrite ?set_set; reflexivity.
Qed.

Lemma id_chain (k : string) (a b c d : option Cond) (acc : Filter) :
  assignIf k d (assignIf k c (assignIf k b (assignIf k a acc)))
  = assignIf k (orLast a (orLast (orLast b c) (orLast (orLast d None) None))) acc.
Proof.
  destruct a, b, c, d; simpl; rewrite ?set_set; reflexivity.
Qed.

Lemma assign_chain (c1 c2 c3 c4 c5 c6 c7 : option Cond) :
  assignIf "registeredEvents.title" c7 (assignIf "adminFor" c6
    (assignIf "appLanguageCode" c5 (assignIf "email" c4
      (assignIf "lastName" c3 (assignIf "firstName" c2 (assignIf "_id" c1 []))))))
  = entries c1 c2 c3 c4 c5 c6 c7.
Proof.
  destruct c1, c2, c3, c4, c5, c6, c7; reflexivity.
Qed.

Lemma assignStartsWith_eq (ok : string -> bool) (k : string) (m : Maybe string)
  (acc : Filter) :
  assignStartsWith ok k m acc
  = match rejectedPattern ok m with
    | Some p => Throws (ThrownSyntaxError p)
    | None => Returns (assignIf k (startsWithCond m) acc)
    end.
Proof.
  unfold assignStartsWith, rejectedPattern, startsWithCond, newRegExp.
  destruct (truthy m) as [t|]; simpl; [|reflexivity].
  destruct (ok _); reflexivity.
Qed.

(** The builder throws on the first pattern the engine refuses, and
    otherwise returns one property per constrained field, in a fixed order,
    holding the last operator set for it. *)
Lemma getInputArg_closed_form (ok : string -> bool) (w : UserWhereInput) :
  getInputArg ok (Val w)
  = match badPattern ok w with
    | Some p => Throws (ThrownSyntaxError p)
    | None => Returns (normalForm w)
    end.
Proof.
  unfold getInputArg, badPattern.
  change (truthy (Val w)) with (Some w). cbv beta iota zeta.
  rewrite assignStartsWith_eq.
  destruct (rejectedPattern ok (firstName_starts_with w)); [reflexivity|].
  cbn [obind orFirst]. rewrite assignStartsWith_eq.
  destruct (rejectedPattern ok (lastName_starts_with w)); [reflexivity|].
  cbn [obind orFirst]. rewrite assignStartsWith_eq.
  destruct (rejectedPattern ok (email_starts_with w)); [reflexivity|].
  cbn [obind orFirst]. rewrite assignStartsWith_eq.
  destruct (rejectedPattern ok (appLanguageCode_starts_with w)); [reflexivity|].
  cbn [obind]. f_equal.
  rewrite !field_chain, id_chain.
  exact (assign_chain _ _ _ _ _ _ _).
Qed.

Lemma getInputArg_returns (ok : string -> bool) (w : UserWhereInput) (q : Filter) :
  getInputArg ok (Val w) = Returns q -> q = normalForm w.
Proof.
  rewrite getInputArg_closed_form.
  destruct (badPattern ok w); intros H; now inversion H.
Qed.

Lemma get_entries (f : Field) (c1 c2 c3 c4 c5 c6 c7 : option Cond) :
  get (path f) (entries c1 c2 c3 c4 c5 c6 c7)
  = match f with
    | F_id => c1
    | F_firstName => c2
    | F_lastName => c3
    | F_email => c4
    | F_appLanguageCode => c5
    end.
Proof.
  destruct f, c1, c2, c3, c4, c5, c6, c7; reflexivity.
Qed.

Lemma get_normalForm (f : Field) (w : UserWhereInput) :
  get (path f) (normalForm w) = fieldCond f w.
Proof.
  unfold normalForm. rewrite get_entries. now destruct f.
Qed.

Lemma storeQuery_entries (orgId : string) (c1 c2 c3 c4 c5 c6 c7 : option Cond) :
  storeQuery orgId (entries c1 c2 c3 c4 c5 c6 c7)
  = ("joinedOrganizations", CSub orgId) :: entries c1 c2 c3 c4 c5 c6 c7.
Proof.
  destruct c1, c2, c3, c4, c5, c6, c7; reflexivity.
Qed.


(** ** Evaluation of filters *)

Lemma get_In {V : Type} (k : string) (v : V) (o : Object V) :
  get k o = Some v -> In (k, v) o.
Proof.
  induction o as [|[k' v'] o IH]; simpl; [discriminate|].
  destruct (String.eqb k k') eqn:E.
  - apply String.eqb_eq in E. intros H. inversion H. subst. now left.
  - intros H. right. now apply IH.
Qed.

Lemma matchesQuery_In (q : Filter) (d : Obj) (k : string) (c : Cond) :
  matchesQuery q d = Some true -> In (k, c) q ->
  matchesCond c (valuesAt k d) = Some true.
Proof.
  induction q as [|[k' c'] q IH]; simpl; [contradiction|].
  destruct (matchesCond c' (valuesAt k' d)) as [b|] eqn:Hc; [|discriminate].
  destruct (matchesQuery q d) as [b'|]; [|discriminate].
  intros H Hin. inversion H as [Hb].
  apply andb_true_iff in Hb. destruct Hb as [Hb Hb']. subst b b'.
  destruct Hin as [Heq|Hin].
  - inversion Heq. subst. exact Hc.
  - now apply IH.
Qed.

Lemma matchesQuery_get (orgId : string) (w : UserWhereInput) (f : Field)
  (c : Cond) (d : Obj) :
  fieldCond f w = Some c ->
  matchesQuery (storeQuery orgId (normalForm w)) d = Some true ->
  matchesCond c (valuesAt (path f) d) = Some true.
Proof.
  intros Hc Hm. apply (matchesQuery_In _ _ _ _ Hm).
  unfold normalForm. rewrite storeQuery_entries. right.
  apply get_In. fold (normalForm w). now rewrite get_normalForm.
Qed.

Lemma existsb_mem_nil (vals : list string) :
  existsb (fun x => mem x []) vals = false.
Proof.
  induction vals as [|v vals IH]; [reflexivity|exact IH].
Qed.

(** ** Patterns *)

Lemma parse_literal (t : string) :
  literal t = true -> parse t = Some (map TChar (list_ascii_of_string t)).
Proof.
  induction t as [|c t IH]; simpl; [reflexivity|].
  intros H. apply andb_true_iff in H. destruct H as [H Hl].
  apply andb_true_iff in H. destruct H as [Hc Hm].
  apply negb_true_iff in Hc, Hm. rewrite Hc, Hm, (IH Hl). reflexivity.
Qed.

Lemma search_anchored_off_start (ts : list Tok) (caseless : bool) (s : string) :
  search (TStart :: ts) caseless false s = false.
Proof.
  induction s as [|c s IH]; simpl; [reflexivity|exact IH].
Qed.

Lemma matchAt_literal (t v : string) (atStart : bool) :
  matchAt (map TChar (list_ascii_of_string t)) false atStart v = String.prefix t v.
Proof.
  revert v atStart. induction t as [|a t IH]; intros v atStart.
  - destruct v; reflexivity.
  - destruct v as [|b v]; simpl; [reflexivity|].
    unfold eqChar. destruct (ascii_dec a b) as [->|Hne].
    + rewrite Ascii.eqb_refl. simpl. apply IH.
    + apply Ascii.eqb_neq in Hne. now rewrite Hne.
Qed.

Lemma anchored_literal_is_prefix (t v : string) :
  literal t = true ->
  matchesCond (CRegExp (mkRegExp ("^" ++ t) "")) [v] = Some (String.prefix t v).
Proof.
  intros Hl. unfold matchesCond, regexAny. cbn [source flags].
  change (parse ("^" ++ t)) with (option_map (cons TStart) (parse t)).
  rewrite (parse_literal t Hl). cbn [option_map flagMode String.eqb anyMatch test andb].
  change (flagMode "") with (Some false). cbv beta iota.
  destruct v as [|b v]; cbn [search matchAt andb].
  - now rewrite matchAt_literal, !orb_false_r.
  - rewrite search_anchored_off_start, matchAt_literal, !orb_false_r. reflexivity.
Qed.

(** ** The predicate builder *)

(** C1, as the code has it: the operators of one field are not conjoined.
    Each operator that is set overwrites the field's property, so the filter
    keeps, for every field, exactly the operator set last in the order
    equality, [not], [in], [not_in], [contains], [starts_with]; a record the
    store matches satisfies that operator (and those kept for the other
    fields), not the ones it replaced. *)
Theorem same_field_last_operator_wins (ok : string -> bool) (w : UserWhereInput)
  (q : Filter) (f : Field) :
  getInputArg ok (Val w) = Returns q ->
  get (path f) q = fieldCond f w
  /\ forall (orgId : string) (d : Obj) (c : Cond),
       fieldCond f w = Some c ->
       matchesQuery (storeQuery orgId q) d = Some true ->
       matchesCond c (valuesAt (path f) d) = Some true.
Proof.
  intros Hq. apply getInputArg_returns in Hq. subst q. split.
  - apply get_normalForm.
  - intros orgId d c Hc Hm. exact (matchesQuery_get orgId w f c d Hc Hm).
Qed.

(** C1, witness: [firstName_not] and [firstName_contains] together leave the
    [contains] pattern alone on [firstName]. *)
Lemma same_field_last_operator_wins_witness :
  getInputArg fragmentSyntaxOk
    (Val (firstNameWhere Undefined (Val "John") Undefined Undefined (Val "oh") Undefined))
  = Returns [("firstName", CRegex "oh" "i")]
  /\ get "firstName" [("firstName", CRegex "oh" "i")] = Some (CRegex "oh" "i").
Proof.
  split; [reflexivity|].
  exact (proj1 (same_field_last_operator_wins fragmentSyntaxOk
                  (firstNameWhere Undefined (Val "John") Undefined Undefined
                     (Val "oh") Undefined)
                  [("firstName", CRegex "oh" "i")] F_firstName eq_refl)).
Defined.

(** C1, counterexample: with [firstName_not = "John"] and
    [firstName_contains = "oh"] the filter holds the pattern only, and the
    store matches the record of John, which the [not] operator excludes. *)
Lemma same_field_operators_overwritten :
  getInputArg fragmentSyntaxOk
    (Val (firstNameWhere Undefined (Val "John") Undefined Undefined (Val "oh") Undefined))
  = Returns [("firstName", CRegex "oh" "i")]
  /\ matchesQuery (storeQuery "org1" [("firstName", CRegex "oh" "i")]) userJohn
     = Some true
  /\ matchesCond (CNe "John") (valuesAt "firstName" userJohn) = Some false.
Proof. repeat split. Qed.

(** C2, as the code has it: [starts_with] builds [new RegExp("^" + term)]
    with no flag.  For a non-empty term without pattern syntax the field's
    condition is that RegExp and a value matches exactly when the term is a
    prefix of it, case counting; a value that holds the term further in does
    not match. *)
Theorem startsWith_anchored_case_sensitive (ok : string -> bool)
  (w : UserWhereInput) (q : Filter) (f : Field) (t : string) :
  getInputArg ok (Val w) = Returns q ->
  op_starts_with f w = Val t ->
  t <> "" ->
  literal t = true ->
  get (path f) q = Some (CRegExp (mkRegExp ("^" ++ t) ""))
  /\ forall v : string,
       matchesCond (CRegExp (mkRegExp ("^" ++ t) "")) [v] = Some (String.prefix t v).
Proof.
  intros Hq Hop Hne Hl. apply getInputArg_returns in Hq. subst q. split.
  - rewrite get_normalForm. unfold fieldCond, afterEq, afterIn, startsWithCond.
    rewrite Hop. destruct t as [|c t]; [contradiction|]. reflexivity.
  - intros v. now apply anchored_literal_is_prefix.
Qed.

(** C2, witness: the term ["John"] on [firstName]. *)
Lemma startsWith_anchored_case_sensitive_witness :
  (getInputArg fragmentSyntaxOk
     (Val (firstNameWhere Undefined Undefined Undefined Undefined Undefined (Val "John")))
   = Returns [("firstName", CRegExp (mkRegExp "^John" ""))]
   /\ "John" <> "" /\ literal "John" = true)
  /\ get "firstName" [("firstName", CRegExp (mkRegExp "^John" ""))]
     = Some (CRegExp (mkRegExp "^John" ""))
  /\ matchesCond (CRegExp (mkRegExp "^John" "")) ["Johnson"] = Some true
  /\ matchesCond (CRegExp (mkRegExp "^John" "")) ["AJohnson"] = Some false.
Proof.
  assert (Hne : "John" <> "") by discriminate.
  pose proof (startsWith_anchored_case_sensitive fragmentSyntaxOk
                (firstNameWhere Undefined Undefined Undefined Undefined Undefined
                   (Val "John"))
                [("firstName", CRegExp (mkRegExp "^John" ""))] F_firstName "John"
                eq_refl eq_refl Hne eq_refl) as [Hget Hmatch].
  split; [split; [reflexivity | split; [exact Hne | reflexivity]]|].
  split; [exact Hget|].
  split; [exact (Hmatch "Johnson") | exact (Hmatch "AJohnson")].
Defined.

(** A term with a character outside ASCII is a term without pattern
    syntax as well: ["José"] anchors a prefix match byte for byte. *)
Lemma startsWith_term_outside_ascii :
  literal "José" = true
  /\ allAscii "José" = false
  /\ getInputArg fragmentSyntaxOk
       (Val (firstNameWhere Undefined Undefined Undefined Undefined Undefined
               (Val "José")))
     = Returns [("firstName", CRegExp (mkRegExp "^José" ""))]
  /\ matchesCond (CRegExp (mkRegExp "^José" "")) ["Joséphine"] = Some true
  /\ matchesCond (CRegExp (mkRegExp "^José" "")) ["Jose"] = Some false
  /\ matchesCond (CRegExp (mkRegExp "^José" "")) ["MaJosé"] = Some false.
Proof. repeat split. Qed.

(** C2, counterexample: the term ["john"] is a prefix of ["Johnson"] up to
    case, and the condition built for it does not match that value. *)
Lemma startsWith_is_case_sensitive :
  getInputArg fragmentSyntaxOk
    (Val (firstNameWhere Undefined Undefined Undefined Undefined Undefined (Val "john")))
  = Returns [("firstName", CRegExp (mkRegExp "^john" ""))]
  /\ prefixNoCase "john" "Johnson" = true
  /\ matchesCond (CRegExp (mkRegExp "^john" "")) ["Johnson"] = Some false.
Proof. repeat split. Qed.

(** C4, as the code has it: the equality block is guarded by the truthiness
    of the value.  When no other operator of the field is set, a non-empty
    value [v] gives the field the condition "equals [v]", and the empty
    string gives it no condition at all. *)
Theorem eq_operator_needs_nonempty_value (ok : string -> bool) (w : UserWhereInput)
  (q : Filter) (f : Field) (v : string) :
  getInputArg ok (Val w) = Returns q ->
  op_eq f w = Val v ->
  afterEq f w = None ->
  get (path f) q = if toBoolean v then Some (CEq v) else None.
Proof.
  intros Hq Hop Hafter. apply getInputArg_returns in Hq. subst q.
  rewrite get_normalForm. unfold fieldCond. rewrite Hafter, Hop.
  unfold truthy. now destruct (toBoolean v).
Qed.

(** C4, witness: [firstName = "John"] alone. *)
Lemma eq_operator_needs_nonempty_value_witness :
  (getInputArg fragmentSyntaxOk
     (Val (firstNameWhere (Val "John") Undefined Undefined Undefined Undefined Undefined))
   = Returns [("firstName", CEq "John")]
   /\ afterEq F_firstName
        (firstNameWhere (Val "John") Undefined Undefined Undefined Undefined Undefined)
      = None)
  /\ get "firstName" [("firstName", CEq "John")] = Some (CEq "John").
Proof.
  split; [split; reflexivity|].
  exact (eq_operator_needs_nonempty_value fragmentSyntaxOk
           (firstNameWhere (Val "John") Undefined Undefined Undefined Undefined Undefined)
           [("firstName", CEq "John")] F_firstName "John" eq_refl eq_refl eq_refl).
Defined.

(** C4, counterexample: [firstName] given as the empty string adds no
    condition; the filter stays empty. *)
Lemma eq_empty_string_adds_nothing :
  getInputArg fragmentSyntaxOk
    (Val (firstNameWhere (Val "") Undefined Undefined Undefined Undefined Undefined))
  = Returns []
  /\ get "firstName" (storeQuery "org1" []) = None.
Proof. repeat split. Qed.

(** C6, as the code has it: an empty array is truthy, so an [in] or
    [not_in] given the empty set is neither skipped nor an error.  When no
    operator tested later on the same field is set, the field's condition
    is the membership in the empty set, which no value satisfies (the store
    then matches no record), respectively the non-membership, which every
    value satisfies.  The builder itself only throws on a [starts_with]
    pattern the engine refuses. *)
Theorem empty_set_operators (ok : string -> bool) (w : UserWhereInput)
  (f : Field) (op : SetOp) :
  badPattern ok w = None ->
  setOperand op f w = Val [] ->
  afterSetOp op f w = None ->
  exists q : Filter,
    getInputArg ok (Val w) = Returns q
    /\ get (path f) q = Some (emptySetCond op)
    /\ (forall vals : list string,
           matchesCond (emptySetCond op) vals = Some (emptySetVerdict op))
    /\ (op = OpIn ->
        forall (orgId : string) (d : Obj),
          matchesQuery (storeQuery orgId q) d <> Some true).
Proof.
  intros Hok Hop Hafter. exists (normalForm w).
  assert (Hcond : fieldCond f w = Some (emptySetCond op)).
  { unfold fieldCond, afterEq. destruct op; cbn [setOperand afterSetOp] in Hop, Hafter.
    - rewrite Hafter, Hop. reflexivity.
    - unfold afterIn. unfold afterNotIn in Hafter. rewrite Hop.
      destruct (containsCond (op_contains f w)), (startsWithCond (op_starts_with f w));
        try discriminate Hafter; reflexivity. }
  split; [|split; [|split]].
  - rewrite getInputArg_closed_form, Hok. reflexivity.
  - rewrite get_normalForm. exact Hcond.
  - intros vals. destruct op; cbn [emptySetCond emptySetVerdict matchesCond];
      now rewrite existsb_mem_nil.
  - intros -> orgId d Hm.
    pose proof (matchesQuery_get orgId w f _ d Hcond Hm) as Hc.
    cbn [emptySetCond matchesCond] in Hc.
    rewrite existsb_mem_nil in Hc. discriminate Hc.
Qed.

(** C6, witness: [id_in = []] alone; the filter asks for membership in the
    empty set and the store matches no record of the sample. *)
Lemma empty_set_operators_witness :
  (badPattern fragmentSyntaxOk (idWhere Undefined Undefined (Val []) Undefined) = None
   /\ setOperand OpIn F_id (idWhere Undefined Undefined (Val []) Undefined) = Val []
   /\ afterSetOp OpIn F_id (idWhere Undefined Undefined (Val []) Undefined) = None)
  /\ exists q : Filter,
      getInputArg fragmentSyntaxOk (Val (idWhere Undefined Undefined (Val []) Undefined))
      = Returns q
      /\ get "_id" q = Some (CIn [])
      /\ (forall vals : list string, matchesCond (CIn []) vals = Some false)
      /\ (OpIn = OpIn ->
          forall (orgId : string) (d : Obj),
            matchesQuery (storeQuery orgId q) d <> Some true).
Proof.
  split; [repeat split|].
  exact (empty_set_operators fragmentSyntaxOk
           (idWhere Undefined Undefined (Val []) Undefined) F_id OpIn
           eq_refl eq_refl eq_refl).
Defined.

(** C6, counterexample: [firstName_in = []] together with
    [firstName_contains = "oh"]; the filter holds no membership condition
    and the store matches the record of John. *)
Lemma empty_in_overwritten :
  getInputArg fragmentSyntaxOk
    (Val (firstNameWhere Undefined Undefined (Val []) Undefined (Val "oh") Undefined))
  = Returns [("firstName", CRegex "oh" "i")]
  /\ matchesQuery (storeQuery "org1" [("firstName", CRegex "oh" "i")]) userJohn
     = Some true.
Proof. split; reflexivity. Qed.





(** ** The resolver *)

Section ResolverProperties.

Context {OrderBy Sort : Type}.
Variable getSort : Maybe OrderBy -> Sort.
Variable ok : string -> bool.
Variable store : Filter -> PaginateOptions Sort -> Settled PaginateResult.t.

(** The resolver, branch by branch: the builder runs first; a truthy
    [first] with a null [skip] throws before the store is called; a truthy
    [first] with an undefined [skip] calls the store and throws afterwards;
    otherwise the store's page is mapped and returned. *)
Lemma organizationsMemberConnection_run (args : QueryArgs OrderBy) (context : Context) :
  organizationsMemberConnection getSort ok store args context
  = match getInputArg ok (where_ args) with
    | Throws e => ([], Throws e)
    | Returns inputArg =>
        let query := storeQuery (orgId args) inputArg in
        let sort := getSort (orderBy args) in
        match truthy (first args) with
        | None =>
            ([(query, unpagedOptions sort)],
             match store query (unpagedOptions sort) with
             | Fulfilled usersModel =>
                 Returns (connectionOf usersModel
                            (map (unpagedEdge context) (PaginateResult.docs usersModel)))
             | RejectedWith reason => Throws (Rejected reason)
             end)
        | Some _ =>
            match skip args with
            | Null => ([], Throws (ThrownString missingSkip))
            | Undefined =>
                ([(query, pagedOptions sort Undefined (first args))],
                 match store query (pagedOptions sort Undefined (first args)) with
                 | Fulfilled _ => Throws (ThrownError "Skip parameter is missing")
                 | RejectedWith reason => Throws (Rejected reason)
                 end)
            | Val n =>
                ([(query, pagedOptions sort (Val n) (first args))],
                 match store query (pagedOptions sort (Val n) (first args)) with
                 | Fulfilled usersModel =>
                     Returns (connectionOf usersModel
                                (map (pagedEdge context) (PaginateResult.docs usersModel)))
                 | RejectedWith reason => Throws (Rejected reason)
                 end)
            end
        end
    end.
Proof.
  unfold organizationsMemberConnection, await_paginate, lift, bind.
  destruct (getInputArg ok (where_ args)) as [inputArg|e]; [|reflexivity].
  destruct (truthy (first args)) as [n|].
  - destruct (skip args) as [| |s]; cbn.
    + unfold pagedOptions, withPopulateSelect; cbn.
      destruct (store _ _); reflexivity.
    + reflexivity.
    + unfold pagedOptions, withPopulateSelect; cbn.
      destruct (store _ _); reflexivity.
  - cbn. unfold unpagedOptions, withPopulateSelect; cbn.
    destruct (store _ _); reflexivity.
Qed.

Lemma getInputArg_throws (where_ : Maybe UserWhereInput) (e : Exn) :
  getInputArg ok where_ = Throws e -> exists p : string, e = ThrownSyntaxError p.
Proof.
  destruct where_ as [| |w]; try discriminate.
  rewrite getInputArg_closed_form.
  destruct (badPattern ok w) as [p|]; [|discriminate].
  intros H. inversion H. now exists p.
Qed.

Lemma truthy_unset {A : Type} `{ToBoolean A} (m : Maybe A) :
  unset m = true -> truthy m = None.
Proof.
  destruct m; [reflexivity | reflexivity | discriminate].
Qed.

Lemma noFieldsSet_empty_filter (where_ : Maybe UserWhereInput) :
  noFieldsSet where_ = true -> getInputArg ok where_ = Returns [].
Proof.
  destruct where_ as [| |w]; [reflexivity | reflexivity |].
  intros H. cbn [noFieldsSet] in H.
  repeat (apply andb_true_iff in H; let H' := fresh "U" in destruct H as [H H']).
  rewrite getInputArg_closed_form.
  unfold badPattern, rejectedPattern, normalForm, fieldCond, afterEq, afterIn,
    containsCond, startsWithCond, op_eq, op_not, op_in, op_not_in, op_contains,
    op_starts_with.
  repeat match goal with
         | Hu : unset ?m = true |- _ => rewrite (truthy_unset m Hu); clear Hu
         end.
  reflexivity.
Qed.

Lemma get_image_edge (x : JsVal) (o : Obj) :
  get "image" (set "password" JNull (set "image" x o)) = Some x.
Proof.
  rewrite get_set_other by reflexivity. apply get_set_same.
Qed.

Lemma imageUrl_string (context : Context) (s : string) :
  s <> "" -> imageUrl context (JStr s) = JStr (apiRootUrl context ++ s).
Proof.
  intros Hne. destruct s as [|c s]; [contradiction|]. reflexivity.
Qed.

Lemma imageRule_edge (context : Context) (user : StoreDoc) (o : Obj) :
  imageRule context user
    (set "password" JNull (set "image" (imageUrl context (user_image user)) o)).
Proof.
  split.
  - intros s Hs Hne. rewrite get_image_edge, Hs. f_equal.
    now apply imageUrl_string.
  - intros Hnull. rewrite get_image_edge, Hnull. reflexivity.
Qed.

(** On the record itself the two branches do the same: a lean record in the
    paged branch and a hydrated one in the unpaged branch are reshaped alike. *)
Lemma edges_agree_on_raw_record (context : Context) (raw : Obj) :
  pagedEdge context (LeanDoc raw) = reshaped context raw
  /\ unpagedEdge context (HydratedDoc raw) = reshaped context raw.
Proof.
  split; reflexivity.
Qed.

Lemma Forall2_map_same {A B : Type} (R : A -> B -> Prop) (g : A -> B) (l : list A) :
  (forall a, R a (g a)) -> Forall2 R l (map g l).
Proof.
  intros HR. induction l as [|a l IH]; simpl; constructor; auto.
Qed.

(** C3, as the code has it: when [first] is given and not zero, and [skip]
    is null or undefined, the request fails.  When [skip] is null the
    failure comes before any store access: no call is made, and the error
    is the "Missing Skip parameter" one whenever the filter itself builds. *)
Theorem missing_skip_is_rejected (args : QueryArgs OrderBy) (context : Context)
  (n : Z) :
  first args = Val n ->
  n <> 0%Z ->
  unset (skip args) = true ->
  let run := organizationsMemberConnection getSort ok store args context in
  (exists e : Exn, snd run = Throws e)
  /\ (skip args = Null ->
      fst run = []
      /\ (isReturns (getInputArg ok (where_ args)) = true ->
          snd run = Throws (ThrownString missingSkip))).
Proof.
  intros Hfirst Hn Hskip run. subst run.
  rewrite organizationsMemberConnection_run, Hfirst.
  assert (Ht : truthy (Val n) = Some n).
  { unfold truthy, toBoolean, ToBoolean_Z.
    destruct (Z.eqb_spec n 0); [contradiction|reflexivity]. }
  rewrite Ht.
  destruct (getInputArg ok (where_ args)) as [inputArg|e]; cbv zeta.
  - destruct (skip args) as [| |s]; [| |discriminate Hskip]; cbn [snd fst].
    + split; [|discriminate].
      destruct (store _ _); eexists; reflexivity.
    + split; [eexists; reflexivity|].
      intros _. split; [reflexivity|]. intros _. reflexivity.
  - cbn [snd fst isReturns]. split; [eexists; reflexivity|].
    intros _. split; [reflexivity|discriminate].
Qed.

(** C5: when no field of the filter is set, or the filter is absent, the
    builder returns the membership condition of the organization and
    nothing else, and that is the filter of every call the resolver makes
    to the store (one call as soon as the pagination arguments let the
    request through). *)
Theorem no_fields_only_membership (args : QueryArgs OrderBy) (context : Context) :
  noFieldsSet (where_ args) = true ->
  let run := organizationsMemberConnection getSort ok store args context in
  let base := [("joinedOrganizations", CSub (orgId args))] in
  buildPredicate ok (orgId args) (where_ args) = Returns base
  /\ (forall call : StoreCall Sort, In call (fst run) -> fst call = base)
  /\ (truthy (first args) = None \/ skip args <> Null ->
      exists options : PaginateOptions Sort, fst run = [(base, options)]).
Proof.
  intros Hno run base. subst run base.
  pose proof (noFieldsSet_empty_filter _ Hno) as Hq.
  unfold buildPredicate.
  rewrite organizationsMemberConnection_run, Hq. cbn [obind].
  split; [reflexivity|]. change (storeQuery (orgId args) []) with
    [("joinedOrganizations", CSub (orgId args))]. cbv zeta.
  destruct (truthy (first args)) as [n|].
  - destruct (skip args) as [| |s]; cbn [fst In].
    + split; [intros call [<-|[]]; reflexivity | intros _; eauto].
    + split; [intros call []|]. intros [Hf|Hs]; [discriminate Hf|contradiction].
    + split; [intros call [<-|[]]; reflexivity | intros _; eauto].
  - cbn [fst In]. split; [intros call [<-|[]]; reflexivity | intros _; eauto].
Qed.

(** C7: in a response, paged or not, every member of [edges] has its
    [password] property equal to null, whatever record the store gave. *)
Theorem password_always_null (args : QueryArgs OrderBy) (context : Context)
  (conn : Connection) :
  snd (organizationsMemberConnection getSort ok store args context) = Returns conn ->
  Forall (fun member => get "password" member = Some JNull) (edges conn).
Proof.
  rewrite organizationsMemberConnection_run.
  destruct (getInputArg ok (where_ args)) as [inputArg|e]; [|discriminate].
  cbv zeta.
  destruct (truthy (first args)) as [n|]; [destruct (skip args) as [| |s]|];
    cbn [snd]; try discriminate;
    destruct (store _ _) as [usersModel|reason]; try discriminate;
    intros H; inversion H; cbn [edges connectionOf];
    apply Forall_map, Forall_forall; intros user _; apply get_set_same.
Qed.

(** C8: every member of a response is made of one record the store
    returned, in order; its [image] is [apiRootUrl] followed by the raw
    image when that is a non-empty string (a relative path), and null when
    the raw image is null. *)
Theorem image_is_rooted_or_null (args : QueryArgs OrderBy) (context : Context)
  (conn : Connection) :
  snd (organizationsMemberConnection getSort ok store args context) = Returns conn ->
  exists (call : StoreCall Sort) (usersModel : PaginateResult.t),
    In call (fst (organizationsMemberConnection getSort ok store args context))
    /\ store (fst call) (snd call) = Fulfilled usersModel
    /\ Forall2 (imageRule context) (PaginateResult.docs usersModel) (edges conn).
Proof.
  rewrite organizationsMemberConnection_run.
  destruct (getInputArg ok (where_ args)) as [inputArg|e]; [|discriminate].
  cbv zeta.
  destruct (truthy (first args)) as [n|]; [destruct (skip args) as [| |s]|];
    cbn [snd fst]; try discriminate;
    destruct (store _ _) as [usersModel|reason] eqn:Hstore; try discriminate;
    intros H; inversion H; cbn [edges connectionOf];
    eexists (_, _), usersModel;
    (split; [left; reflexivity|]); (split; [exact Hstore|]);
    apply Forall2_map_same; intros user; apply imageRule_edge.
Qed.

(** C10: with [first] equal to 0 the request is unpaged whatever [skip]
    is: neither missing-skip error is thrown; once the filter is built the
    store is called once, with [pagination: false] and no page or limit;
    and every record of the store's answer is mapped into [edges]. *)
Theorem first_zero_is_unpaged (args : QueryArgs OrderBy) (context : Context) :
  first args = Val 0%Z ->
  let run := organizationsMemberConnection getSort ok store args context in
  (forall msg : string,
      snd run <> Throws (ThrownString msg) /\ snd run <> Throws (ThrownError msg))
  /\ forall inputArg : Filter,
       getInputArg ok (where_ args) = Returns inputArg ->
       let query := storeQuery (orgId args) inputArg in
       let options := unpagedOptions (getSort (orderBy args)) in
       fst run = [(query, options)]
       /\ forall usersModel : PaginateResult.t,
            store query options = Fulfilled usersModel ->
            snd run
            = Returns (connectionOf usersModel
                         (map (unpagedEdge context) (PaginateResult.docs usersModel))).
Proof.
  intros Hfirst run. subst run.
  rewrite organizationsMemberConnection_run, Hfirst.
  change (truthy (Val 0%Z)) with (@None Z).
  destruct (getInputArg ok (where_ args)) as [q|e] eqn:Hq.
  - cbv zeta. cbn [snd fst]. split.
    + intros msg. destruct (store _ _); split; discriminate.
    + intros inputArg Heq. inversion Heq. subst inputArg.
      split; [reflexivity|]. intros usersModel ->. reflexivity.
  - destruct (getInputArg_throws _ _ Hq) as [p ->]. cbn [snd]. split.
    + intros msg. split; discriminate.
    + intros inputArg Heq. discriminate Heq.
Qed.

End ResolverProperties.

(** ** The resolver on the in-memory store *)

(** C3, witness: [first = 10] with a null [skip] over the sample store. *)
Lemma missing_skip_is_rejected_witness :
  (first (sampleArgs Undefined (Val 10%Z) Null) = Val 10%Z
   /\ 10%Z <> 0%Z
   /\ unset (skip (sampleArgs Undefined (Val 10%Z) Null)) = true)
  /\ fst (sampleRun Undefined (Val 10%Z) Null) = []
  /\ snd (sampleRun Undefined (Val 10%Z) Null) = Throws (ThrownString missingSkip).
Proof.
  assert (Hn : 10%Z <> 0%Z) by discriminate.
  pose proof (missing_skip_is_rejected (fun _ => tt) fragmentSyntaxOk
                (memStore sampleDb) (sampleArgs Undefined (Val 10%Z) Null)
                sampleContext 10%Z eq_refl Hn eq_refl) as [_ Hnull].
  destruct (Hnull eq_refl) as [Hcalls Herr].
  split; [split; [reflexivity | split; [exact Hn | reflexivity]]|].
  split; [exact Hcalls | exact (Herr eq_refl)].
Defined.

(** C3, counterexample: with [first = 0] and a null [skip] the request
    succeeds; with [first = 10] and [skip] left undefined the store is
    called once before the request fails. *)
Lemma missing_skip_not_rejected_before_store :
  isReturns (snd (sampleRun Undefined (Val 0%Z) Null)) = true
  /\ List.length (fst (sampleRun Undefined (Val 10%Z) Undefined)) = 1%nat
  /\ snd (sampleRun Undefined (Val 10%Z) Undefined)
     = Throws (ThrownError "Skip parameter is missing").
Proof. repeat split. Qed.

(** C5, witness: a filter object with no field, unpaged. *)
Lemma no_fields_only_membership_witness :
  noFieldsSet (where_ (sampleArgs (Val emptyWhere) Undefined Undefined)) = true
  /\ buildPredicate fragmentSyntaxOk "org1" (Val emptyWhere)
     = Returns [("joinedOrganizations", CSub "org1")]
  /\ fst (sampleRun (Val emptyWhere) Undefined Undefined)
     = [([("joinedOrganizations", CSub "org1")], unpagedOptions tt)].
Proof.
  split; [reflexivity|].
  split; [|reflexivity].
  exact (proj1 (no_fields_only_membership (fun _ => tt) fragmentSyntaxOk
                  (memStore sampleDb)
                  (sampleArgs (Val emptyWhere) Undefined Undefined)
                  sampleContext eq_refl)).
Defined.

(** C7, witness: a page of two and the unpaged listing of the sample
    organization, whose records are stored with their password hashes. *)
Lemma password_always_null_witness :
  (exists conn : Connection,
      snd (sampleRun Undefined (Val 2%Z) (Val 1%Z)) = Returns conn
      /\ List.length (edges conn) = 2%nat
      /\ Forall (fun member => get "password" member = Some JNull) (edges conn))
  /\ (exists conn : Connection,
         snd (sampleRun Undefined Undefined Undefined) = Returns conn
         /\ List.length (edges conn) = 2%nat
         /\ Forall (fun member => get "password" member = Some JNull) (edges conn)).
Proof.
  split; eexists; (split; [reflexivity|]); (split; [reflexivity|]).
  - exact (password_always_null (fun _ => tt) fragmentSyntaxOk (memStore sampleDb)
             (sampleArgs Undefined (Val 2%Z) (Val 1%Z)) sampleContext _ eq_refl).
  - exact (password_always_null (fun _ => tt) fragmentSyntaxOk (memStore sampleDb)
             (sampleArgs Undefined Undefined Undefined) sampleContext _ eq_refl).
Defined.

(** C8, witness: the record with image ["/u1.png"] and the one with a null
    image, under the root ["https://api.example.com"]. *)
Lemma image_is_rooted_or_null_witness :
  exists conn : Connection,
    snd (sampleRun Undefined Undefined Undefined) = Returns conn
    /\ map (get "image") (edges conn)
       = [Some (JStr "https://api.example.com/u1.png"); Some JNull]
    /\ exists (call : StoreCall unit) (usersModel : PaginateResult.t),
        In call (fst (sampleRun Undefined Undefined Undefined))
        /\ memStore sampleDb (fst call) (snd call) = Fulfilled usersModel
        /\ Forall2 (imageRule sampleContext) (PaginateResult.docs usersModel)
             (edges conn).
Proof.
  eexists. split; [reflexivity|]. split; [reflexivity|].
  exact (image_is_rooted_or_null (fun _ => tt) fragmentSyntaxOk (memStore sampleDb)
           (sampleArgs Undefined Undefined Undefined) sampleContext _ eq_refl).
Defined.

(** C10, witness: [first = 0] with [skip] left out; one unpaged call, both
    members of the organization returned. *)
Lemma first_zero_is_unpaged_witness :
  first (sampleArgs Undefined (Val 0%Z) Undefined) = Val 0%Z
  /\ fst (sampleRun Undefined (Val 0%Z) Undefined)
     = [([("joinedOrganizations", CSub "org1")], unpagedOptions tt)]
  /\ (exists conn : Connection,
         snd (sampleRun Undefined (Val 0%Z) Undefined) = Returns conn
         /\ map (get "_id") (edges conn) = [Some (JStr "u1"); Some (JStr "u2")]).
Proof.
  pose proof (first_zero_is_unpaged (fun _ => tt) fragmentSyntaxOk (memStore sampleDb)
                (sampleArgs Undefined (Val 0%Z) Undefined) sampleContext eq_refl)
    as [_ Hrun].
  destruct (Hrun [] eq_refl) as [Hcalls Hret].
  split; [reflexivity|]. split; [exact Hcalls|].
  eexists. split; [exact (Hret _ eq_refl)|reflexivity].
Defined.

(** * Further properties of the builder *)

Lemma rejectedPattern_none (ok : string -> bool) (m : Maybe string) :
  rejectedPattern ok m = None
  <-> (forall t : string, m = Val t -> t <> "" -> ok ("^" ++ t)%string = true).
Proof.
  unfold rejectedPattern, truthy. split.
  - intros H t -> Hne. destruct t as [|c t]; [contradiction|].
    cbn in H. destruct (ok _); [reflexivity|discriminate].
  - intros H. destruct m as [| |t]; try reflexivity.
    destruct t as [|c t]; [reflexivity|].
    assert (Hok : ok ("^" ++ String c t)%string = true) by (apply H; [reflexivity|discriminate]).
    cbn in *. rewrite Hok. reflexivity.
Qed.

Lemma rejectedPattern_some (ok : string -> bool) (m : Maybe string) (p : string) :
  rejectedPattern ok m = Some p ->
  exists t : string,
    m = Val t /\ t <> "" /\ ok ("^" ++ t)%string = false /\ p = ("^" ++ t)%string.
Proof.
  unfold rejectedPattern, truthy. destruct m as [| |t]; try discriminate.
  destruct t as [|c t]; [discriminate|]. cbn.
  destruct (ok _) eqn:E; [discriminate|].
  intros H. inversion H. exists (String c t).
  repeat split; [discriminate|exact E].
Qed.

(** X1: the builder returns exactly when the engine accepts the pattern of
    every [starts_with] term that is set; no other input can make it throw. *)
Theorem builder_returns_iff_patterns_accepted (ok : string -> bool)
  (w : UserWhereInput) :
  isReturns (getInputArg ok (Val w)) = true
  <-> (forall t : string,
          In (Val t) (startsWithTerms w) -> t <> "" -> ok ("^" ++ t)%string = true).
Proof.
  rewrite getInputArg_closed_form. unfold badPattern, startsWithTerms. split.
  - intros H t Hin Hne.
    destruct (rejectedPattern ok (firstName_starts_with w)) eqn:E1; [discriminate|].
    destruct (rejectedPattern ok (lastName_starts_with w)) eqn:E2; [discriminate|].
    destruct (rejectedPattern ok (email_starts_with w)) eqn:E3; [discriminate|].
    destruct (rejectedPattern ok (appLanguageCode_starts_with w)) eqn:E4;
      [discriminate|].
    destruct Hin as [Hin|[Hin|[Hin|[Hin|[]]]]].
    + exact (proj1 (rejectedPattern_none ok _) E1 t Hin Hne).
    + exact (proj1 (rejectedPattern_none ok _) E2 t Hin Hne).
    + exact (proj1 (rejectedPattern_none ok _) E3 t Hin Hne).
    + exact (proj1 (rejectedPattern_none ok _) E4 t Hin Hne).
  - intros H.
    assert (Hnone : forall m, In m (startsWithTerms w) -> rejectedPattern ok m = None).
    { intros m Hin. apply rejectedPattern_none. intros t -> Hne. now apply H. }
    unfold startsWithTerms in Hnone.
    rewrite !Hnone by (simpl; tauto). reflexivity.
Qed.

(** X2: whatever the builder throws is the SyntaxError of a [starts_with]
    pattern: the anchor followed by a non-empty term of the filter that the
    engine refuses. *)
Theorem builder_throws_refused_pattern (ok : string -> bool)
  (where_ : Maybe UserWhereInput) (e : Exn) :
  getInputArg ok where_ = Throws e ->
  exists (w : UserWhereInput) (t : string),
    where_ = Val w
    /\ In (Val t) (startsWithTerms w)
    /\ t <> ""
    /\ ok ("^" ++ t)%string = false
    /\ e = ThrownSyntaxError ("^" ++ t).
Proof.
  destruct where_ as [| |w]; try discriminate.
  rewrite getInputArg_closed_form. unfold badPattern, startsWithTerms.
  destruct (rejectedPattern ok (firstName_starts_with w)) as [p|] eqn:E1;
    [|destruct (rejectedPattern ok (lastName_starts_with w)) as [p|] eqn:E2;
      [|destruct (rejectedPattern ok (email_starts_with w)) as [p|] eqn:E3;
        [|destruct (rejectedPattern ok (appLanguageCode_starts_with w)) as [p|] eqn:E4;
          [|discriminate]]]];
    cbn [orFirst]; intros H; inversion H; subst e;
    match goal with
    | E : rejectedPattern ok _ = Some p |- _ =>
        destruct (rejectedPattern_some ok _ p E) as [t [Hm [Hne [Hok Hp]]]]
    end;
    exists w, t; subst p; rewrite <- Hm; simpl; tauto.
Qed.

(** X2, witness: the term ["("] on [lastName], refused by the fragment grammar. *)
Lemma builder_throws_refused_pattern_witness :
  getInputArg fragmentSyntaxOk (Val refusedWhere) = Throws (ThrownSyntaxError "^(")
  /\ exists (w : UserWhereInput) (t : string),
      Val refusedWhere = Val w
      /\ In (Val t) (startsWithTerms w)
      /\ t <> ""
      /\ fragmentSyntaxOk ("^" ++ t)%string = false
      /\ ThrownSyntaxError "^(" = ThrownSyntaxError ("^" ++ t).
Proof.
  split; [reflexivity|].
  exact (builder_throws_refused_pattern fragmentSyntaxOk (Val refusedWhere)
           (ThrownSyntaxError "^(") eq_refl).
Defined.

(** ** The shape of the filter *)

Lemma get_entries_relations (c1 c2 c3 c4 c5 c6 c7 : option Cond) :
  get "joinedOrganizations" (entries c1 c2 c3 c4 c5 c6 c7) = None
  /\ get "adminFor" (entries c1 c2 c3 c4 c5 c6 c7) = c6
  /\ get "registeredEvents.title" (entries c1 c2 c3 c4 c5 c6 c7) = c7.
Proof.
  destruct c1, c2, c3, c4, c5, c6, c7; repeat split.
Qed.

Lemma matchesQuery_key (orgId : string) (w : UserWhereInput) (k : string)
  (c : Cond) (d : Obj) :
  get k (normalForm w) = Some c ->
  matchesQuery (storeQuery orgId (normalForm w)) d = Some true ->
  matchesCond c (valuesAt k d) = Some true.
Proof.
  intros Hget Hm. apply (matchesQuery_In _ _ _ _ Hm).
  unfold normalForm in *. rewrite storeQuery_entries. right.
  now apply get_In.
Qed.

(** X4: the membership condition is always the first property of the filter
    handed to the store, no block of the builder can overwrite it, and
    every record the store matches belongs to the organization. *)
Theorem membership_condition_always_kept (ok : string -> bool) (orgId : string)
  (where_ : Maybe UserWhereInput) (q : Filter) :
  buildPredicate ok orgId where_ = Returns q ->
  exists inputArg : Filter,
    getInputArg ok where_ = Returns inputArg
    /\ q = ("joinedOrganizations", CSub orgId) :: inputArg
    /\ get "joinedOrganizations" inputArg = None
    /\ forall d : Obj,
         matchesQuery q d = Some true ->
         mem orgId (valuesAt "joinedOrganizations" d) = true.
Proof.
  unfold buildPredicate.
  destruct (getInputArg ok where_) as [inputArg|e] eqn:Hq; [|discriminate].
  cbn [obind]. intros H. inversion H as [Hq']. clear H.
  exists inputArg. split; [reflexivity|].
  assert (Hshape : storeQuery orgId inputArg
                   = ("joinedOrganizations", CSub orgId) :: inputArg
                   /\ get "joinedOrganizations" inputArg = None).
  { destruct where_ as [| |w]; try (inversion Hq; subst; split; reflexivity).
    apply getInputArg_returns in Hq. subst inputArg. unfold normalForm.
    split; [apply storeQuery_entries|apply get_entries_relations]. }
  destruct Hshape as [Hcons Hnone]. split; [exact Hcons|]. split; [exact Hnone|].
  intros d Hm. rewrite Hcons in Hm.
  pose proof (matchesQuery_In _ d "joinedOrganizations" (CSub orgId) Hm
                (or_introl eq_refl)) as Hc.
  cbn [matchesCond] in Hc. injection Hc as Hc. exact Hc.
Qed.

(** X4, witness: a filter on [firstName] for the organization ["org1"]. *)
Lemma membership_condition_always_kept_witness :
  buildPredicate fragmentSyntaxOk "org1"
    (Val (firstNameWhere (Val "John") Undefined Undefined Undefined Undefined Undefined))
  = Returns [("joinedOrganizations", CSub "org1"); ("firstName", CEq "John")]
  /\ exists inputArg : Filter,
      getInputArg fragmentSyntaxOk
        (Val (firstNameWhere (Val "John") Undefined Undefined Undefined Undefined
                Undefined))
      = Returns inputArg
      /\ [("joinedOrganizations", CSub "org1"); ("firstName", CEq "John")]
         = ("joinedOrganizations", CSub "org1") :: inputArg
      /\ get "joinedOrganizations" inputArg = None
      /\ forall d : Obj,
           matchesQuery
             [("joinedOrganizations", CSub "org1"); ("firstName", CEq "John")] d
           = Some true ->
           mem "org1" (valuesAt "joinedOrganizations" d) = true.
Proof.
  split; [reflexivity|].
  exact (membership_condition_always_kept fragmentSyntaxOk "org1"
           (Val (firstNameWhere (Val "John") Undefined Undefined Undefined Undefined
                   Undefined))
           [("joinedOrganizations", CSub "org1"); ("firstName", CEq "John")] eq_refl).
Defined.

(** ** Falsy inputs *)

Lemma truthy_dropFalsy {A : Type} `{ToBoolean A} (m : Maybe A) :
  truthy (dropFalsy m) = truthy m.
Proof.
  unfold dropFalsy. destruct m as [| |a]; try reflexivity.
  unfold truthy. destruct (toBoolean a) eqn:E; [|reflexivity].
  now rewrite E.
Qed.

(** X5: the builder cannot tell a null, an undefined and an empty-string
    operator apart: taking every falsy value out of the filter changes
    neither the filter built nor the error thrown. *)
Theorem falsy_operators_are_ignored (ok : string -> bool) (w : UserWhereInput) :
  getInputArg ok (Val (dropFalsyWhere w)) = getInputArg ok (Val w).
Proof.
  rewrite !getInputArg_closed_form.
  unfold badPattern, rejectedPattern, normalForm, fieldCond, afterEq, afterIn,
    containsCond, startsWithCond, op_eq, op_not, op_in, op_not_in, op_contains,
    op_starts_with, dropFalsyWhere.
  cbn [id id_not id_in id_not_in
       firstName firstName_not firstName_in firstName_not_in firstName_contains
       firstName_starts_with
       lastName lastName_not lastName_in lastName_not_in lastName_contains
       lastName_starts_with
       email email_not email_in email_not_in email_contains email_starts_with
       appLanguageCode appLanguageCode_not appLanguageCode_in appLanguageCode_not_in
       appLanguageCode_contains appLanguageCode_starts_with
       admin_for event_title_contains].
  rewrite !truthy_dropFalsy. reflexivity.
Qed.

(** ** The relation operators *)

(** X6: [admin_for] with a non-empty identifier puts [{ _id: v }] under
    [adminFor], whatever else the filter holds, and every record the store
    matches then has [v] among the organizations it administers. *)
Theorem admin_for_selects_administrators (ok : string -> bool) (w : UserWhereInput)
  (q : Filter) (v : string) :
  getInputArg ok (Val w) = Returns q ->
  admin_for w = Val v ->
  v <> "" ->
  get "adminFor" q = Some (CSub v)
  /\ forall (orgId : string) (d : Obj),
       matchesQuery (storeQuery orgId q) d = Some true ->
       mem v (valuesAt "adminFor" d) = true.
Proof.
  intros Hq Hadmin Hne. apply getInputArg_returns in Hq. subst q.
  assert (Hget : get "adminFor" (normalForm w) = Some (CSub v)).
  { unfold normalForm.
    rewrite (proj1 (proj2 (get_entries_relations _ _ _ _ _ _ _))), Hadmin.
    destruct v as [|c v]; [contradiction|reflexivity]. }
  split; [exact Hget|].
  intros orgId d Hm.
  pose proof (matchesQuery_key orgId w _ _ d Hget Hm) as Hc.
  cbn [matchesCond] in Hc. injection Hc as Hc. exact Hc.
Qed.

(** X6, witness: administrators of ["org7"] among the members of ["org1"]. *)
Lemma admin_for_selects_administrators_witness :
  (getInputArg fragmentSyntaxOk (Val (relationWhere (Val "org7") Undefined))
   = Returns [("adminFor", CSub "org7")]
   /\ admin_for (relationWhere (Val "org7") Undefined) = Val "org7"
   /\ "org7" <> "")
  /\ get "adminFor" [("adminFor", CSub "org7")] = Some (CSub "org7")
  /\ (matchesQuery (storeQuery "org1" [("adminFor", CSub "org7")]) userWithEvents
      = Some true ->
      mem "org7" (valuesAt "adminFor" userWithEvents) = true).
Proof.
  assert (Hne : "org7" <> "") by discriminate.
  pose proof (admin_for_selects_administrators fragmentSyntaxOk
                (relationWhere (Val "org7") Undefined)
                [("adminFor", CSub "org7")] "org7" eq_refl eq_refl Hne)
    as [Hget Hmatch].
  split; [split; [reflexivity | split; [reflexivity | exact Hne]]|].
  split; [exact Hget | exact (Hmatch "org1" userWithEvents)].
Defined.

(** ** Caseless substring patterns *)

Lemma matchAt_literal_caseless (t v : string) (atStart : bool) :
  matchAt (map TChar (list_ascii_of_string t)) true atStart v = prefixNoCase t v.
Proof.
  revert v atStart. induction t as [|a t IH]; intros v atStart.
  - destruct v; reflexivity.
  - destruct v as [|b v]; simpl; [reflexivity|].
    unfold eqChar. now rewrite IH.
Qed.

Lemma search_literal_caseless (t v : string) (atStart : bool) :
  search (map TChar (list_ascii_of_string t)) true atStart v = containsNoCase t v.
Proof.
  revert atStart. induction v as [|b v IH]; intros atStart; simpl.
  - now rewrite matchAt_literal_caseless.
  - now rewrite matchAt_literal_caseless, IH.
Qed.

Lemma asciiTok_literal (t : string) :
  allAscii t = true ->
  forallb asciiTok (map TChar (list_ascii_of_string t)) = true.
Proof.
  induction t as [|c t IH]; simpl; [reflexivity|].
  intros H. apply andb_true_iff in H. destruct H as [Hc Ht].
  now rewrite Hc, (IH Ht).
Qed.

Lemma regex_caseless_literal (t v : string) :
  literal t = true ->
  allAscii t = true ->
  allAscii v = true ->
  matchesCond (CRegex t "i") [v] = Some (containsNoCase t v).
Proof.
  intros Hl Ht Hv. unfold matchesCond, regexAny.
  rewrite (parse_literal t Hl).
  change (flagMode "i") with (Some true).
  rewrite (asciiTok_literal t Ht). cbn [andb negb].
  cbn [anyMatch]. unfold test. cbn [andb]. rewrite Hv. cbn [negb].
  now rewrite search_literal_caseless, orb_false_r.
Qed.

(** X7: [contains] with a non-empty term, when no [starts_with] of the
    same field replaces it, leaves [{ $regex: term, $options: "i" }] on the
    field, the term as it was given.  When the term is ASCII and has no
    pattern syntax, an ASCII value matches exactly when the term occurs in
    it at some offset, case not counting. *)
Theorem contains_is_caseless_substring (ok : string -> bool) (w : UserWhereInput)
  (q : Filter) (f : Field) (t : string) :
  getInputArg ok (Val w) = Returns q ->
  op_contains f w = Val t ->
  t <> "" ->
  truthy (op_starts_with f w) = None ->
  get (path f) q = Some (CRegex t "i")
  /\ (literal t = true ->
      allAscii t = true ->
      forall v : string,
        allAscii v = true ->
        matchesCond (CRegex t "i") [v] = Some (containsNoCase t v)).
Proof.
  intros Hq Hop Hne Hsw. apply getInputArg_returns in Hq. subst q. split.
  - rewrite get_normalForm.
    unfold fieldCond, afterEq, afterIn, startsWithCond, containsCond.
    rewrite Hsw, Hop. destruct t as [|c t]; [contradiction|]. reflexivity.
  - intros Hl Ht v Hv. now apply regex_caseless_literal.
Qed.

(** X7, witness: [firstName_contains = "OH"] against ["John"] and ["Ann"]. *)
Lemma contains_is_caseless_substring_witness :
  (getInputArg fragmentSyntaxOk
     (Val (firstNameWhere (Val "x") Undefined Undefined Undefined (Val "OH") Undefined))
   = Returns [("firstName", CRegex "OH" "i")]
   /\ "OH" <> "" /\ literal "OH" = true /\ allAscii "OH" = true)
  /\ get "firstName" [("firstName", CRegex "OH" "i")] = Some (CRegex "OH" "i")
  /\ matchesCond (CRegex "OH" "i") ["John"] = Some true
  /\ matchesCond (CRegex "OH" "i") ["Ann"] = Some false.
Proof.
  assert (Hne : "OH" <> "") by discriminate.
  pose proof (contains_is_caseless_substring fragmentSyntaxOk
                (firstNameWhere (Val "x") Undefined Undefined Undefined (Val "OH")
                   Undefined)
                [("firstName", CRegex "OH" "i")] F_firstName "OH"
                eq_refl eq_refl Hne eq_refl) as [Hget Hmatch].
  split; [split; [reflexivity | split; [exact Hne | split; reflexivity]]|].
  split; [exact Hget|].
  split; [exact (Hmatch eq_refl eq_refl "John" eq_refl)
         | exact (Hmatch eq_refl eq_refl "Ann" eq_refl)].
Defined.

(** X8: [event_title_contains] decides the property
    [registeredEvents.title] of the filter alone, whatever else the filter
    holds: a truthy term is put there as [{ $regex: term, $options: "i" }],
    the term as it was given, pattern syntax included; with a falsy term
    the filter has no such property. *)
Theorem event_title_contains_is_caseless (ok : string -> bool) (w : UserWhereInput)
  (q : Filter) :
  getInputArg ok (Val w) = Returns q ->
  get "registeredEvents.title" q
  = option_map (fun t => CRegex t "i") (truthy (event_title_contains w)).
Proof.
  intros Hq. apply getInputArg_returns in Hq. subst q. unfold normalForm.
  exact (proj2 (proj2 (get_entries_relations _ _ _ _ _ _ _))).
Qed.

(** X8, witness: the term ["Gala.*"] beside an [admin_for]. *)
Lemma event_title_contains_is_caseless_witness :
  getInputArg fragmentSyntaxOk (Val (relationWhere (Val "org7") (Val "Gala.*")))
  = Returns [("adminFor", CSub "org7");
             ("registeredEvents.title", CRegex "Gala.*" "i")]
  /\ get "registeredEvents.title"
       [("adminFor", CSub "org7"); ("registeredEvents.title", CRegex "Gala.*" "i")]
     = Some (CRegex "Gala.*" "i").
Proof.
  split; [reflexivity|].
  exact (event_title_contains_is_caseless fragmentSyntaxOk
           (relationWhere (Val "org7") (Val "Gala.*"))
           [("adminFor", CSub "org7"); ("registeredEvents.title", CRegex "Gala.*" "i")]
           eq_refl).
Defined.

(** * Further properties of the resolver *)

Section ResolverExtras.

Context {OrderBy Sort : Type}.
Variable getSort : Maybe OrderBy -> Sort.
Variable ok : string -> bool.
Variable store : Filter -> PaginateOptions Sort -> Settled PaginateResult.t.

Lemma truthy_first_nonzero (n : Z) : n <> 0%Z -> truthy (Val n) = Some n.
Proof.
  intros Hn. unfold truthy, toBoolean, ToBoolean_Z.
  destruct (Z.eqb_spec n 0); [contradiction|reflexivity].
Qed.

(** X9: a request reaches the store at most once, and every call it makes asks
    for the members of the organization of the request, in the order of
    [getSort], with the registered events populated and the password
    projected out. *)
Theorem store_called_at_most_once (args : QueryArgs OrderBy) (context : Context) :
  let run := organizationsMemberConnection getSort ok store args context in
  (List.length (fst run) <= 1)%nat
  /\ forall call : StoreCall Sort,
       In call (fst run) ->
       get "joinedOrganizations" (fst call) = Some (CSub (orgId args))
       /\ sort (snd call) = getSort (orderBy args)
       /\ populate (snd call) = ["registeredEvents"]
       /\ select (snd call) = ["-password"].
Proof.
  cbv zeta. rewrite organizationsMemberConnection_run.
  destruct (getInputArg ok (where_ args)) as [inputArg|e] eqn:Hq.
  - assert (Hjo : get "joinedOrganizations" (storeQuery (orgId args) inputArg)
                  = Some (CSub (orgId args))).
    { destruct (where_ args) as [| |w]; try (inversion Hq; subst; reflexivity).
      apply getInputArg_returns in Hq. subst inputArg. unfold normalForm.
      rewrite storeQuery_entries. reflexivity. }
    cbv zeta.
    destruct (truthy (first args)) as [n|]; [destruct (skip args) as [| |s]|];
      cbn [fst List.length In]; (split; [lia|]);
      intros call Hin; try contradiction;
      destruct Hin as [<-|[]]; cbn [fst snd]; (split; [exact Hjo|]);
      repeat split.
  - cbn [fst List.length In]. split; [lia|]. intros call [].
Qed.

(** X10: when the builder throws, the request fails with that error whatever
    [first] and [skip] are, and the store is not called: the filter is
    built before the pagination arguments are looked at. *)
Theorem builder_error_precedes_validation (args : QueryArgs OrderBy)
  (context : Context) (e : Exn) :
  getInputArg ok (where_ args) = Throws e ->
  organizationsMemberConnection getSort ok store args context = ([], Throws e).
Proof.
  intros Hq. now rewrite organizationsMemberConnection_run, Hq.
Qed.

(** X11: a paged request, [first] not zero and [skip] a number: the store is
    called once with [lean], [pagination: true], [skip] as the page number
    and [first] as the limit, and every record of the page it returns is
    mapped into [edges]. *)
Theorem paged_request_uses_skip_as_page (args : QueryArgs OrderBy)
  (context : Context) (n s : Z) (inputArg : Filter) :
  first args = Val n ->
  n <> 0%Z ->
  skip args = Val s ->
  getInputArg ok (where_ args) = Returns inputArg ->
  let run := organizationsMemberConnection getSort ok store args context in
  let query := storeQuery (orgId args) inputArg in
  let options :=
    mkOptions (Val true) (getSort (orderBy args)) true (Val s) (Val n)
      ["registeredEvents"] ["-password"] in
  fst run = [(query, options)]
  /\ forall usersModel : PaginateResult.t,
       store query options = Fulfilled usersModel ->
       snd run
       = Returns (connectionOf usersModel
                    (map (pagedEdge context) (PaginateResult.docs usersModel))).
Proof.
  intros Hfirst Hn Hskip Hq. cbv zeta.
  rewrite organizationsMemberConnection_run, Hq, Hfirst, Hskip,
    (truthy_first_nonzero n Hn).
  cbv zeta. unfold pagedOptions. cbn [fst snd]. split; [reflexivity|].
  intros usersModel ->. reflexivity.
Qed.

(** X12: when [first] is falsy (absent, null or 0) the [skip] argument is never
    looked at: two requests that differ in [skip] only run alike. *)
Theorem skip_ignored_without_first (filter : Maybe UserWhereInput)
  (order : Maybe OrderBy) (size skip1 skip2 : Maybe Z) (org : string)
  (context : Context) :
  truthy size = None ->
  organizationsMemberConnection getSort ok store
    (mkArgs filter order size skip1 org) context
  = organizationsMemberConnection getSort ok store
      (mkArgs filter order size skip2 org) context.
Proof.
  intros Hsize. rewrite !organizationsMemberConnection_run.
  cbn [where_ orderBy first skip orgId].
  rewrite Hsize. reflexivity.
Qed.

Lemma keepsFields_edges (context : Context) (user : StoreDoc) :
  keepsFields true user (pagedEdge context user)
  /\ keepsFields false user (unpagedEdge context user).
Proof.
  split; intros raw -> k Himage Hpassword;
    apply String.eqb_neq in Himage; apply String.eqb_neq in Hpassword;
    unfold pagedEdge, unpagedEdge; cbn [spreadUser user_doc spreadVal];
    now rewrite !get_set_other.
Qed.

Lemma falsyImageRule_edge (context : Context) (user : StoreDoc) (o : Obj) :
  falsyImageRule user
    (set "password" JNull (set "image" (imageUrl context (user_image user)) o)).
Proof.
  intros Hfalsy. rewrite get_image_edge. unfold imageUrl. now rewrite Hfalsy.
Qed.

(** X13: a rejection of the store is the failure of the request, with the
    store's own reason: the resolver neither catches nor rewrites it, also
    when [skip] is left undefined. *)
Theorem store_rejection_propagates (args : QueryArgs OrderBy) (context : Context)
  (call : StoreCall Sort) (reason : string) :
  In call (fst (organizationsMemberConnection getSort ok store args context)) ->
  store (fst call) (snd call) = RejectedWith reason ->
  snd (organizationsMemberConnection getSort ok store args context)
  = Throws (Rejected reason).
Proof.
  rewrite organizationsMemberConnection_run.
  destruct (getInputArg ok (where_ args)) as [inputArg|e]; [|intros []].
  cbv zeta.
  destruct (truthy (first args)) as [n|]; [destruct (skip args) as [| |s]|];
    cbn [fst snd In]; try (intros []; fail);
    intros [<-|[]]; cbn [fst snd]; intros ->; reflexivity.
Qed.

(** X14: a request succeeds exactly when the filter builds, [skip] is a number
    or [first] is falsy, and the one call made to the store is fulfilled. *)
Theorem request_succeeds_iff (args : QueryArgs OrderBy) (context : Context) :
  let run := organizationsMemberConnection getSort ok store args context in
  isReturns (snd run) = true
  <-> exists (inputArg : Filter) (options : PaginateOptions Sort)
             (usersModel : PaginateResult.t),
        getInputArg ok (where_ args) = Returns inputArg
        /\ fst run = [(storeQuery (orgId args) inputArg, options)]
        /\ store (storeQuery (orgId args) inputArg) options = Fulfilled usersModel
        /\ (truthy (first args) = None \/ exists s : Z, skip args = Val s).
Proof.
  cbv zeta. rewrite organizationsMemberConnection_run.
  destruct (getInputArg ok (where_ args)) as [inputArg|e].
  - cbv zeta.
    destruct (truthy (first args)) as [n|] eqn:Hfirst;
      [destruct (skip args) as [| |s] eqn:Hskip|]; cbn [fst snd].
    + split.
      * destruct (store _ _); discriminate.
      * intros [q [o [m [_ [_ [_ [H|[s H]]]]]]]]; discriminate.
    + split; [discriminate|].
      intros [q [o [m [_ [H _]]]]]. discriminate.
    + split.
      * destruct (store _ _) as [m|r] eqn:Hstore; [|discriminate].
        intros _. exists inputArg, (pagedOptions (getSort (orderBy args)) (Val s)
                                     (first args)), m.
        repeat split; [exact Hstore|]. right. now exists s.
      * intros [q [o [m [Hq [Hcall [Hstore _]]]]]].
        inversion Hq. subst q. inversion Hcall. subst o.
        now rewrite Hstore.
    + split.
      * destruct (store _ _) as [m|r] eqn:Hstore; [|discriminate].
        intros _. exists inputArg, (unpagedOptions (getSort (orderBy args))), m.
        repeat split; [exact Hstore|]. now left.
      * intros [q [o [m [Hq [Hcall [Hstore _]]]]]].
        inversion Hq. subst q. inversion Hcall. subst o.
        now rewrite Hstore.
  - cbn [fst snd isReturns]. split; [discriminate|].
    intros [q [o [m [Hq _]]]]. discriminate.
Qed.

(** X15: in a response every member keeps, under the same names, the
    properties of the raw record it is made of, [image] and [password]
    apart: the lean object of a paged call, the [_doc] of the document of
    an unpaged one. *)
Theorem members_keep_other_fields (args : QueryArgs OrderBy) (context : Context)
  (conn : Connection) :
  snd (organizationsMemberConnection getSort ok store args context) = Returns conn ->
  exists (call : StoreCall Sort) (usersModel : PaginateResult.t),
    In call (fst (organizationsMemberConnection getSort ok store args context))
    /\ store (fst call) (snd call) = Fulfilled usersModel
    /\ Forall2 (keepsFields (pagination (snd call)))
         (PaginateResult.docs usersModel) (edges conn).
Proof.
  rewrite organizationsMemberConnection_run.
  destruct (getInputArg ok (where_ args)) as [inputArg|e]; [|discriminate].
  cbv zeta.
  destruct (truthy (first args)) as [n|]; [destruct (skip args) as [| |s]|];
    cbn [snd fst]; try discriminate;
    destruct (store _ _) as [usersModel|reason] eqn:Hstore; try discriminate;
    intros H; inversion H; cbn [edges connectionOf];
    eexists (_, _), usersModel;
    (split; [left; reflexivity|]); (split; [exact Hstore|]);
    cbn [snd pagination pagedOptions unpagedOptions];
    apply Forall2_map_same; intros user; apply keepsFields_edges.
Qed.

(** X16: in a response the [image] of a member is null whenever the raw image
    is falsy: missing, null or the empty string. *)
Theorem falsy_image_is_null (args : QueryArgs OrderBy) (context : Context)
  (conn : Connection) :
  snd (organizationsMemberConnection getSort ok store args context) = Returns conn ->
  exists (call : StoreCall Sort) (usersModel : PaginateResult.t),
    In call (fst (organizationsMemberConnection getSort ok store args context))
    /\ store (fst call) (snd call) = Fulfilled usersModel
    /\ Forall2 falsyImageRule (PaginateResult.docs usersModel) (edges conn).
Proof.
  rewrite organizationsMemberConnection_run.
  destruct (getInputArg ok (where_ args)) as [inputArg|e]; [|discriminate].
  cbv zeta.
  destruct (truthy (first args)) as [n|]; [destruct (skip args) as [| |s]|];
    cbn [snd fst]; try discriminate;
    destruct (store _ _) as [usersModel|reason] eqn:Hstore; try discriminate;
    intros H; inversion H; cbn [edges connectionOf];
    eexists (_, _), usersModel;
    (split; [left; reflexivity|]); (split; [exact Hstore|]);
    apply Forall2_map_same; intros user; apply falsyImageRule_edge.
Qed.

(** X17: a response carries the store's page data unchanged: the flags, the
    page numbers and the total count are those of the page the store
    returned, and [edges] has one member for each of its records. *)
Theorem page_metadata_passes_through (args : QueryArgs OrderBy) (context : Context)
  (conn : Connection) :
  snd (organizationsMemberConnection getSort ok store args context) = Returns conn ->
  exists (call : StoreCall Sort) (usersModel : PaginateResult.t),
    In call (fst (organizationsMemberConnection getSort ok store args context))
    /\ store (fst call) (snd call) = Fulfilled usersModel
    /\ pageInfo conn
       = mkPageInfo (PaginateResult.hasNextPage usersModel)
           (PaginateResult.hasPrevPage usersModel)
           (PaginateResult.totalPages usersModel)
           (PaginateResult.nextPage usersModel)
           (PaginateResult.prevPage usersModel)
           (PaginateResult.page usersModel)
    /\ count (aggregate conn) = PaginateResult.totalDocs usersModel
    /\ List.length (edges conn) = List.length (PaginateResult.docs usersModel).
Proof.
  rewrite organizationsMemberConnection_run.
  destruct (getInputArg ok (where_ args)) as [inputArg|e]; [|discriminate].
  cbv zeta.
  destruct (truthy (first args)) as [n|]; [destruct (skip args) as [| |s]|];
    cbn [snd fst]; try discriminate;
    destruct (store _ _) as [usersModel|reason] eqn:Hstore; try discriminate;
    intros H; inversion H;
    eexists (_, _), usersModel;
    (split; [left; reflexivity|]); (split; [exact Hstore|]);
    cbn [pageInfo aggregate count edges connectionOf];
    rewrite length_map; repeat split.
Qed.

End ResolverExtras.

(** ** The further properties on the in-memory store *)

(** X10, witness: a refused [starts_with] pattern with [first = 10] and a null
    [skip]; the SyntaxError comes first and the store is not called. *)
Lemma builder_error_precedes_validation_witness :
  getInputArg fragmentSyntaxOk (where_ (sampleArgs (Val refusedWhere) (Val 10%Z) Null))
  = Throws (ThrownSyntaxError "^(")
  /\ sampleRun (Val refusedWhere) (Val 10%Z) Null
     = ([], Throws (ThrownSyntaxError "^(")).
Proof.
  split; [reflexivity|].
  exact (builder_error_precedes_validation (fun _ => tt) fragmentSyntaxOk
           (memStore sampleDb) (sampleArgs (Val refusedWhere) (Val 10%Z) Null)
           sampleContext (ThrownSyntaxError "^(") eq_refl).
Defined.

(** X11, witness: the second page of size one of the sample organization. *)
Lemma paged_request_uses_skip_as_page_witness :
  (first (sampleArgs Undefined (Val 1%Z) (Val 2%Z)) = Val 1%Z
   /\ 1%Z <> 0%Z
   /\ skip (sampleArgs Undefined (Val 1%Z) (Val 2%Z)) = Val 2%Z
   /\ getInputArg fragmentSyntaxOk (where_ (sampleArgs Undefined (Val 1%Z) (Val 2%Z)))
      = Returns [])
  /\ fst (sampleRun Undefined (Val 1%Z) (Val 2%Z))
     = [([("joinedOrganizations", CSub "org1")],
         mkOptions (Val true) tt true (Val 2%Z) (Val 1%Z)
           ["registeredEvents"] ["-password"])]
  /\ exists conn : Connection,
      snd (sampleRun Undefined (Val 1%Z) (Val 2%Z)) = Returns conn
      /\ map (get "_id") (edges conn) = [Some (JStr "u2")].
Proof.
  assert (Hn : 1%Z <> 0%Z) by discriminate.
  pose proof (paged_request_uses_skip_as_page (fun _ => tt) fragmentSyntaxOk
                (memStore sampleDb) (sampleArgs Undefined (Val 1%Z) (Val 2%Z))
                sampleContext 1%Z 2%Z [] eq_refl Hn eq_refl eq_refl)
    as [Hcalls Hret].
  split; [split; [reflexivity | split; [exact Hn | split; reflexivity]]|].
  split; [exact Hcalls|].
  eexists. split; [exact (Hret _ eq_refl)|reflexivity].
Defined.

(** X12, witness: [first = 0] with a null [skip] and with [skip = 5]. *)
Lemma skip_ignored_without_first_witness :
  truthy (Val 0%Z) = None
  /\ sampleRun Undefined (Val 0%Z) Null = sampleRun Undefined (Val 0%Z) (Val 5%Z).
Proof.
  split; [reflexivity|].
  exact (skip_ignored_without_first (fun _ => tt) fragmentSyntaxOk
           (memStore sampleDb) Undefined Undefined (Val 0%Z) Null (Val 5%Z)
           "org1" sampleContext eq_refl).
Defined.

(** X13, witness: a [contains] term the in-memory store refuses, with [first]
    set and [skip] left undefined; the store's reason is what the request
    fails with. *)
Lemma store_rejection_propagates_witness :
  (In (storeQuery "org1" [("firstName", CRegex "a.b" "i")],
       mkOptions (Val true) tt true Undefined (Val 3%Z)
         ["registeredEvents"] ["-password"])
     (fst (sampleRun
             (Val (firstNameWhere Undefined Undefined Undefined Undefined
                     (Val "a.b") Undefined))
             (Val 3%Z) Undefined))
   /\ memStore sampleDb (storeQuery "org1" [("firstName", CRegex "a.b" "i")])
        (mkOptions (Val true) tt true Undefined (Val 3%Z)
           ["registeredEvents"] ["-password"])
      = RejectedWith "unsupported pattern")
  /\ snd (sampleRun
            (Val (firstNameWhere Undefined Undefined Undefined Undefined
                    (Val "a.b") Undefined))
            (Val 3%Z) Undefined)
     = Throws (Rejected "unsupported pattern").
Proof.
  assert (Hin : In (storeQuery "org1" [("firstName", CRegex "a.b" "i")],
                    mkOptions (Val true) tt true Undefined (Val 3%Z)
                      ["registeredEvents"] ["-password"])
                  (fst (sampleRun
                          (Val (firstNameWhere Undefined Undefined Undefined Undefined
                                  (Val "a.b") Undefined))
                          (Val 3%Z) Undefined))) by (left; reflexivity).
  split; [split; [exact Hin | reflexivity]|].
  exact (store_rejection_propagates (fun _ => tt) fragmentSyntaxOk
           (memStore sampleDb)
           (sampleArgs
              (Val (firstNameWhere Undefined Undefined Undefined Undefined
                      (Val "a.b") Undefined))
              (Val 3%Z) Undefined)
           sampleContext _ "unsupported pattern" Hin eq_refl).
Defined.

(** X15, witness: a page and the unpaged listing over the store holding the
    record of Ann; her name and her events come back as stored. *)
Lemma members_keep_other_fields_witness :
  exists conn : Connection,
    snd (eventsRun (Val 5%Z) (Val 1%Z)) = Returns conn
    /\ map (get "firstName") (edges conn) = [Some (JStr "Ann"); Some (JStr "AJohnson")]
    /\ exists (call : StoreCall unit) (usersModel : PaginateResult.t),
        In call (fst (eventsRun (Val 5%Z) (Val 1%Z)))
        /\ memStore [userWithEvents; userAJohnson] (fst call) (snd call)
           = Fulfilled usersModel
        /\ Forall2 (keepsFields (pagination (snd call)))
             (PaginateResult.docs usersModel) (edges conn).
Proof.
  eexists. split; [reflexivity|]. split; [reflexivity|].
  exact (members_keep_other_fields (fun _ => tt) fragmentSyntaxOk
           (memStore [userWithEvents; userAJohnson])
           (sampleArgs Undefined (Val 5%Z) (Val 1%Z)) sampleContext _ eq_refl).
Defined.

(** X16, witness: Ann's image is stored as the empty string and comes back
    null. *)
Lemma falsy_image_is_null_witness :
  exists conn : Connection,
    snd (eventsRun Undefined Undefined) = Returns conn
    /\ map (get "image") (edges conn) = [Some JNull; Some JNull]
    /\ exists (call : StoreCall unit) (usersModel : PaginateResult.t),
        In call (fst (eventsRun Undefined Undefined))
        /\ memStore [userWithEvents; userAJohnson] (fst call) (snd call)
           = Fulfilled usersModel
        /\ Forall2 falsyImageRule (PaginateResult.docs usersModel) (edges conn).
Proof.
  eexists. split; [reflexivity|]. split; [reflexivity|].
  exact (falsy_image_is_null (fun _ => tt) fragmentSyntaxOk
           (memStore [userWithEvents; userAJohnson])
           (sampleArgs Undefined Undefined Undefined) sampleContext _ eq_refl).
Defined.

(** X17, witness: the second page of size one; one more page before, none after,
    two members in all. *)
Lemma page_metadata_passes_through_witness :
  exists conn : Connection,
    snd (sampleRun Undefined (Val 1%Z) (Val 2%Z)) = Returns conn
    /\ pageInfo conn = mkPageInfo false true 2%Z Null (Val 1%Z) (Val 2%Z)
    /\ exists (call : StoreCall unit) (usersModel : PaginateResult.t),
        In call (fst (sampleRun Undefined (Val 1%Z) (Val 2%Z)))
        /\ memStore sampleDb (fst call) (snd call) = Fulfilled usersModel
        /\ pageInfo conn
           = mkPageInfo (PaginateResult.hasNextPage usersModel)
               (PaginateResult.hasPrevPage usersModel)
               (PaginateResult.totalPages usersModel)
               (PaginateResult.nextPage usersModel)
               (PaginateResult.prevPage usersModel)
               (PaginateResult.page usersModel)
        /\ count (aggregate conn) = PaginateResult.totalDocs usersModel
        /\ List.length (edges conn) = List.length (PaginateResult.docs usersModel).
Proof.
  eexists. split; [reflexivity|]. split; [reflexivity|].
  exact (page_metadata_passes_through (fun _ => tt) fragmentSyntaxOk
           (memStore sampleDb) (sampleArgs Undefined (Val 1%Z) (Val 2%Z))
           sampleContext _ eq_refl).
Defined.
